(** * capsule8 [pkg/sys/proc]: process identity from procfs text records

    A shallow embedding of [pkg/sys/proc/proc.go].  Go strings are byte
    strings, modelled as [string] (a list of 8-bit [ascii]); Go slices are
    lists, the nil slice being the empty list (the package never builds an
    empty slice that is not nil).  A call that ends the process
    ([glog.Fatalf], an index out of range, [panic]) is an [Abort].  *)

From Stdlib Require Import ZArith List Bool Ascii String Lia.
From Stdlib Require Import Numbers.DecimalString.
From Stdlib Require DecimalFacts DecimalPos.
Import ListNotations.
Open Scope string_scope.
Open Scope Z_scope.

Set Implicit Arguments.

(* ===================================================================== *)
(** ** Results of calls that may end the process *)

(** How a Go call of this package ends the process. *)
Inductive abort : Type :=
| GlogFatal (msg : string)            (* glog.Fatal / glog.Fatalf: log, exit *)
| IndexOutOfRange (i len : nat)       (* run-time panic: s[i] with len(s) <= i *)
| PanicErr (path : string).           (* panic(err) of a failed read *)

Inductive result (A : Type) : Type :=
| Ret (a : A)
| Abort (e : abort).

Arguments Ret {A} a.
Arguments Abort {A} e.

Definition bind {A B} (m : result A) (k : A -> result B) : result B :=
  match m with
  | Ret a => k a
  | Abort e => Abort e
  end.

Notation "x <- m ;; k" := (bind m (fun x => k))
  (at level 61, m at next level, right associativity).
Notation "' p <- m ;; k" := (bind m (fun p => k))
  (at level 61, p pattern, m at next level, right associativity).


Definition isFatal {A} (r : result A) : bool :=
  match r with Abort (GlogFatal _) => true | _ => false end.

(** [s[i]] on a slice: a run-time panic when [i] is out of range. *)
Definition index {A} (l : list A) (i : nat) : result A :=
  match nth_error l i with
  | Some x => Ret x
  | None => Abort (IndexOutOfRange i (List.length l))
  end.

(* ===================================================================== *)
(** ** Bytes *)

Definition byteval (c : ascii) : Z := Z.of_N (N_of_ascii c).
Definition bytechr (z : Z) : ascii := ascii_of_N (Z.to_N (z mod 256)).

Definition NUL : ascii := "000"%char.
Definition LF : ascii := "010"%char.
Definition CR : ascii := "013"%char.

Definition inRange (lo hi c : ascii) : bool :=
  (byteval lo <=? byteval c) && (byteval c <=? byteval hi).

(** [lower] of strconv: c | ('x' - 'X'). *)
Definition lower (c : ascii) : ascii := bytechr (Z.lor (byteval c) 32).

Fixpoint bytes_of (s : string) : list Z :=
  match s with
  | EmptyString => []
  | String c s' => byteval c :: bytes_of s'
  end.

Fixpoint string_of_bytes (l : list Z) : string :=
  match l with
  | [] => EmptyString
  | b :: l' => String (bytechr b) (string_of_bytes l')
  end.

Fixpoint contains_byte (c : ascii) (s : string) : bool :=
  match s with
  | EmptyString => false
  | String d s' => Ascii.eqb c d || contains_byte c s'
  end.

Fixpoint forallb_str (p : ascii -> bool) (s : string) : bool :=
  match s with
  | EmptyString => true
  | String c s' => p c && forallb_str p s'
  end.

Fixpoint rev_str (s : string) : string :=
  match s with
  | EmptyString => EmptyString
  | String c s' => rev_str s' ++ String c EmptyString
  end.

Fixpoint drop (n : nat) (s : string) : string :=
  match n, s with
  | O, _ => s
  | S k, String _ s' => drop k s'
  | S _, EmptyString => EmptyString
  end.

Definition len (s : string) : Z := Z.of_nat (String.length s).

(** [s] cut at every byte [d]: one more segment than there are [d]. *)
Fixpoint cut (d : ascii) (s : string) : list string :=
  match s with
  | EmptyString => [EmptyString]
  | String c s' =>
    if Ascii.eqb c d then EmptyString :: cut d s'
    else
      match cut d s' with
      | l :: ls => String c l :: ls
      | [] => [String c EmptyString]
      end
  end.

(* ===================================================================== *)
(** ** Go's [unicode/utf8] and [unicode.IsSpace] *)

Module utf8.

Definition RuneError : Z := 0xFFFD.
Definition RuneSelf : Z := 0x80.
Definition UTFMax : Z := 4.

(** Continuation byte range [locb, hicb]. *)
Definition locb : Z := 0x80.
Definition hicb : Z := 0xBF.

(** The tables [first] and [acceptRanges]: for a lead byte, the length of
    the sequence and the range accepted for its second byte; [None] for
    ASCII and for bytes that start no sequence. *)
Definition first (b : Z) : option (nat * Z * Z) :=
  if b <? 0xC2 then None
  else if b <=? 0xDF then Some (2%nat, locb, hicb)
  else if b =? 0xE0 then Some (3%nat, 0xA0, hicb)
  else if b <=? 0xEC then Some (3%nat, locb, hicb)
  else if b =? 0xED then Some (3%nat, locb, 0x9F)
  else if b <=? 0xEF then Some (3%nat, locb, hicb)
  else if b =? 0xF0 then Some (4%nat, 0x90, hicb)
  else if b <=? 0xF3 then Some (4%nat, locb, hicb)
  else if b =? 0xF4 then Some (4%nat, locb, 0x8F)
  else None.

Definition cont (b : Z) : bool := (locb <=? b) && (b <=? hicb).

(** [DecodeRuneInString]: the first rune of [s] and its width in bytes;
    [(RuneError, 1)] on an invalid or short sequence, [(RuneError, 0)] on
    the empty string. *)
Definition DecodeRuneInString (s : string) : Z * nat :=
  match bytes_of s with
  | [] => (RuneError, 0%nat)
  | s0 :: rest =>
    match first s0 with
    | None => (if s0 <? RuneSelf then s0 else RuneError, 1%nat)
    | Some (sz, lo, hi) =>
      if (List.length rest <? sz - 1)%nat then (RuneError, 1%nat) else
      match rest with
      | [] => (RuneError, 1%nat)
      | s1 :: rest1 =>
        if negb ((lo <=? s1) && (s1 <=? hi)) then (RuneError, 1%nat) else
        if (sz <=? 2)%nat then
          (Z.lor (Z.shiftl (Z.land s0 0x1F) 6) (Z.land s1 0x3F), 2%nat)
        else
        match rest1 with
        | [] => (RuneError, 1%nat)
        | s2 :: rest2 =>
          if negb (cont s2) then (RuneError, 1%nat) else
          if (sz <=? 3)%nat then
            (Z.lor (Z.lor (Z.shiftl (Z.land s0 0x0F) 12)
                          (Z.shiftl (Z.land s1 0x3F) 6))
                   (Z.land s2 0x3F), 3%nat)
          else
          match rest2 with
          | [] => (RuneError, 1%nat)
          | s3 :: _ =>
            if negb (cont s3) then (RuneError, 1%nat) else
            (Z.lor (Z.lor (Z.lor (Z.shiftl (Z.land s0 0x07) 18)
                                 (Z.shiftl (Z.land s1 0x3F) 12))
                          (Z.shiftl (Z.land s2 0x3F) 6))
                   (Z.land s3 0x3F), 4%nat)
          end
        end
      end
    end
  end.

(** [RuneStart]: the byte is not a continuation byte. *)
Definition RuneStart (b : Z) : bool := negb (Z.land b 0xC0 =? 0x80).

Definition byteAt (s : string) (i : Z) : Z :=
  match String.get (Z.to_nat i) s with
  | Some c => byteval c
  | None => 0
  end.

(** The backwards search of [DecodeLastRuneInString]:
    [for start--; start >= lim; start-- { if RuneStart(s[start]) break }]. *)
Fixpoint back (s : string) (lim : Z) (fuel : nat) (start : Z) : Z :=
  match fuel with
  | O => start
  | S f =>
    if start <? lim then start
    else if RuneStart (byteAt s start) then start
    else back s lim f (start - 1)
  end.

Definition DecodeLastRuneInString (s : string) : Z * nat :=
  let e := len s in
  if e =? 0 then (RuneError, 0%nat) else
  let r := byteAt s (e - 1) in
  if r <? RuneSelf then (r, 1%nat) else
  let lim := Z.max 0 (e - UTFMax) in
  let start := Z.max 0 (back s lim 4 (e - 2)) in
  let '(r, size) := DecodeRuneInString (drop (Z.to_nat start) s) in
  if negb (start + Z.of_nat size =? e) then (RuneError, 1%nat)
  else (r, size).

End utf8.

Module unicode.

(** [unicode.IsSpace]: the Latin-1 spaces, and the rest of the
    [White_Space] property. *)
Definition IsSpace (r : Z) : bool :=
  if r <=? 0xFF then
    (r =? 9) || (r =? 10) || (r =? 11) || (r =? 12) || (r =? 13)
    || (r =? 32) || (r =? 0x85) || (r =? 0xA0)
  else
    (r =? 0x1680) || ((0x2000 <=? r) && (r <=? 0x200a))
    || (r =? 0x2028) || (r =? 0x2029) || (r =? 0x202f)
    || (r =? 0x205f) || (r =? 0x3000).

End unicode.

(* ===================================================================== *)
(** ** Go's [strings] *)

Module strings.

Definition HasPrefix (s pre : string) : bool := String.prefix pre s.

(** [strings.Split(s, sep)] for a non-empty [sep]: [s] is cut around every
    instance of [sep], leftmost first and without overlap; the result has
    one more element than there are instances.  [skip] counts the bytes of
    a matched separator still to be passed over, [cur] is the element
    being collected.  (An empty [sep] explodes [s] into runes; the package
    never passes one.) *)
Fixpoint genSplit (sep s : string) (skip : nat) (cur : string)
  : list string :=
  match s with
  | EmptyString => [cur]
  | String c s' =>
    match skip with
    | S k => genSplit sep s' k cur
    | O =>
      if String.prefix sep s
      then cur :: genSplit sep s' (String.length sep - 1) EmptyString
      else genSplit sep s' O (cur ++ String c EmptyString)
    end
  end.

Definition Split (s sep : string) : list string := genSplit sep s O "".

(** [asciiSpace]: the six ASCII white space bytes. *)
Definition asciiSpace (c : ascii) : bool :=
  let b := byteval c in
  (b =? 9) || (b =? 10) || (b =? 11) || (b =? 12) || (b =? 13) || (b =? 32).

(** The runes of [s] in order, each with its bytes: what
    [for i, r := range s] visits. *)
Fixpoint runes (fuel : nat) (s : string) : list (Z * string) :=
  match fuel with
  | O => []
  | S f =>
    match s with
    | EmptyString => []
    | _ =>
      let '(r, w) := utf8.DecodeRuneInString s in
      (r, String.substring 0 w s) :: runes f (drop w s)
    end
  end.

(** [FieldsFunc(s, f)]: the maximal runs of runes not satisfying [f].
    [cur] is [Some] of the bytes of the span that is open ([start >= 0]). *)
Fixpoint spans (f : Z -> bool) (rs : list (Z * string)) (cur : option string)
  : list string :=
  match rs with
  | [] => match cur with Some w => [w] | None => [] end
  | (r, bs) :: rs' =>
    if f r then
      match cur with
      | Some w => w :: spans f rs' None
      | None => spans f rs' None
      end
    else
      match cur with
      | Some w => spans f rs' (Some (w ++ bs))
      | None => spans f rs' (Some bs)
      end
  end.

Definition FieldsFunc (s : string) (f : Z -> bool) : list string :=
  spans f (runes (String.length s) s) None.

(** The ASCII path of [Fields]: fields are the maximal runs of bytes that
    are not [asciiSpace]. *)
Fixpoint fieldsASCII (s : string) (cur : option string) : list string :=
  match s with
  | EmptyString => match cur with Some w => [w] | None => [] end
  | String c s' =>
    if asciiSpace c then
      match cur with
      | Some w => w :: fieldsASCII s' None
      | None => fieldsASCII s' None
      end
    else
      match cur with
      | Some w => fieldsASCII s' (Some (w ++ String c EmptyString))
      | None => fieldsASCII s' (Some (String c EmptyString))
      end
  end.

(** [setBits]: the bitwise or of all bytes of [s]. *)
Definition setBits (s : string) : Z :=
  fold_left Z.lor (bytes_of s) 0.

Definition Fields (s : string) : list string :=
  if utf8.RuneSelf <=? setBits s
  then FieldsFunc s unicode.IsSpace
  else fieldsASCII s None.

(** [Trim(s, cutset)] for a cutset of ASCII bytes: all leading and all
    trailing bytes of [s] that occur in [cutset] are removed.  (Go compares
    runes when the cutset has a byte above 0x7F; the package passes "()".) *)
Fixpoint trimLeftASCII (s cutset : string) : string :=
  match s with
  | EmptyString => EmptyString
  | String c s' =>
    if contains_byte c cutset then trimLeftASCII s' cutset else s
  end.

Definition trimRightASCII (s cutset : string) : string :=
  rev_str (trimLeftASCII (rev_str s) cutset).

Definition Trim (s cutset : string) : string :=
  trimLeftASCII (trimRightASCII s cutset) cutset.

(** [TrimLeftFunc(s, f)]: drop the leading runes that satisfy [f]. *)
Fixpoint trimLeftFunc (fuel : nat) (f : Z -> bool) (s : string) : string :=
  match fuel with
  | O => s
  | S k =>
    match s with
    | EmptyString => s
    | _ =>
      let '(r, w) := utf8.DecodeRuneInString s in
      if f r then trimLeftFunc k f (drop w s) else s
    end
  end.

(** [TrimRightFunc(s, f)]: drop the trailing runes that satisfy [f],
    decoding backwards from the end. *)
Fixpoint trimRightFunc (fuel : nat) (f : Z -> bool) (s : string) : string :=
  match fuel with
  | O => s
  | S k =>
    match s with
    | EmptyString => s
    | _ =>
      let '(r, w) := utf8.DecodeLastRuneInString s in
      if f r
      then trimRightFunc k f (String.substring 0 (String.length s - w) s)
      else s
    end
  end.

Definition TrimFunc (s : string) (f : Z -> bool) : string :=
  let t := trimLeftFunc (String.length s) f s in
  trimRightFunc (String.length t) f t.

(** [TrimSpace]: its ASCII fast path and its fall-back agree with
    [TrimFunc(s, unicode.IsSpace)]. *)
Definition TrimSpace (s : string) : string := TrimFunc s unicode.IsSpace.

End strings.

(* ===================================================================== *)
(** ** Go's [strconv] integer parsing *)

Module strconv.

Inductive NumError : Type := ErrSyntax | ErrRange | ErrBase | ErrBitSize.

(** [IntSize]: the width of [int] on the 64-bit targets of the package. *)
Definition IntSize : Z := 64.
Definition maxUint64 : Z := 2 ^ 64 - 1.

Inductive sawKind : Type := sawBegin | sawDigit | sawUnderscore | sawOther.

Definition isDigit (c : ascii) : bool := inRange "0" "9" c.
Definition isLetter (c : ascii) : bool := inRange "a" "z" (lower c).

Definition stripSign (s : string) : string :=
  match s with
  | String c s' =>
    if Ascii.eqb c "-" || Ascii.eqb c "+" then s' else s
  | EmptyString => s
  end.

Definition basePrefix (s : string) : option ascii :=
  match s with
  | String c0 (String c1 _) =>
    if Ascii.eqb c0 "0"
       && (Ascii.eqb (lower c1) "b" || Ascii.eqb (lower c1) "o"
           || Ascii.eqb (lower c1) "x")
    then Some (lower c1) else None
  | _ => None
  end.

(** The scan of [underscoreOK]: an underscore must follow a digit (or the
    base prefix) and must be followed by a digit. *)
Fixpoint underscoreScan (hex : bool) (s : string) (saw : sawKind) : bool :=
  match s with
  | EmptyString => match saw with sawUnderscore => false | _ => true end
  | String c s' =>
    if isDigit c || (hex && inRange "a" "f" (lower c))
    then underscoreScan hex s' sawDigit
    else if Ascii.eqb c "_" then
      match saw with
      | sawDigit => underscoreScan hex s' sawUnderscore
      | _ => false
      end
    else
      match saw with
      | sawUnderscore => false
      | _ => underscoreScan hex s' sawOther
      end
  end.

Definition underscoreOK (s : string) : bool :=
  let s := stripSign s in
  match basePrefix s with
  | Some p => underscoreScan (Ascii.eqb p "x") (drop 2 s) sawDigit
  | None => underscoreScan false s sawBegin
  end.

(** The digit of a byte in bases up to 36, if it is one. *)
Definition digitValue (c : ascii) : option Z :=
  if isDigit c then Some (byteval c - byteval "0")
  else if isLetter c then Some (byteval (lower c) - byteval "a" + 10)
  else None.

(** The digit loop of [ParseUint]: the value read so far, an error if one
    stopped the loop, and whether an underscore was seen. *)
Fixpoint digitLoop (base0 : bool) (base cutoff maxVal : Z) (s : string)
         (n : Z) (underscores : bool) : Z * option NumError * bool :=
  match s with
  | EmptyString => (n, None, underscores)
  | String c s' =>
    if Ascii.eqb c "_" && base0
    then digitLoop base0 base cutoff maxVal s' n true
    else
      match digitValue c with
      | None => (0, Some ErrSyntax, underscores)
      | Some d =>
        if base <=? d then (0, Some ErrSyntax, underscores)
        else if cutoff <=? n then (maxVal, Some ErrRange, underscores)
        else
          let n1 := n * base + d in
          if maxUint64 <? n1 then (maxVal, Some ErrRange, underscores)
          else if maxVal <? n1 then (maxVal, Some ErrRange, underscores)
          else digitLoop base0 base cutoff maxVal s' n1 underscores
      end
  end.

(** The base [ParseUint] reads in and the digits left after the prefix;
    [None] for a base that is neither 0 nor in 2..36. *)
Definition pickBase (s : string) (base : Z) : option (Z * string) :=
  if (2 <=? base) && (base <=? 36) then Some (base, s)
  else if base =? 0 then
    match s with
    | String c0 _ =>
      if Ascii.eqb c0 "0" then
        match basePrefix s with
        | Some p =>
          if (3 <=? String.length s)%nat then
            if Ascii.eqb p "b" then Some (2, drop 2 s)
            else if Ascii.eqb p "o" then Some (8, drop 2 s)
            else Some (16, drop 2 s)
          else Some (8, drop 1 s)
        | None => Some (8, drop 1 s)
        end
      else Some (10, s)
    | EmptyString => Some (10, s)
    end
  else None.

(** [ParseUint(s, base, bitSize)]: the value and the error, as Go returns
    both. *)
Definition ParseUint (s : string) (base bitSize : Z) : Z * option NumError :=
  match s with
  | EmptyString => (0, Some ErrSyntax)
  | String _ _ =>
    match pickBase s base with
    | None => (0, Some ErrBase)
    | Some (b, digits) =>
      if (bitSize <? 0) || (64 <? bitSize) then (0, Some ErrBitSize) else
      let bitSize := if bitSize =? 0 then IntSize else bitSize in
      let cutoff := maxUint64 / b + 1 in
      let maxVal := 2 ^ bitSize - 1 in
      let '(n, err, underscores) :=
        digitLoop (base =? 0) b cutoff maxVal digits 0 false in
      match err with
      | Some e => (n, Some e)
      | None =>
        if underscores && negb (underscoreOK s) then (0, Some ErrSyntax)
        else (n, None)
      end
    end
  end.

(** [ParseInt(s, base, bitSize)]. *)
Definition ParseInt (s : string) (base bitSize : Z) : Z * option NumError :=
  match s with
  | EmptyString => (0, Some ErrSyntax)
  | String c0 s' =>
    let neg := Ascii.eqb c0 "-" in
    let body := if Ascii.eqb c0 "+" || neg then s' else s in
    let '(un, err) := ParseUint body base bitSize in
    match err with
    | Some ErrSyntax => (0, Some ErrSyntax)
    | Some ErrBase => (0, Some ErrBase)
    | Some ErrBitSize => (0, Some ErrBitSize)
    | _ =>
      let bitSize := if bitSize =? 0 then IntSize else bitSize in
      let cutoff := 2 ^ (bitSize - 1) in
      if negb neg && (cutoff <=? un) then (cutoff - 1, Some ErrRange)
      else if neg && (cutoff <? un) then (- cutoff, Some ErrRange)
      else (if neg then - un else un, None)
    end
  end.

(** [Atoi(s)] is [ParseInt(s, 10, 0)] converted to [int]. *)
Definition Atoi (s : string) : Z * option NumError := ParseInt s 10 0.

End strconv.

(* ===================================================================== *)
(** ** Go's [bufio]: [Reader.ReadString] and [Scanner] with [ScanLines] *)

Module bufio.

(** [reader.ReadString(delim)] on a reader over the bytes [r]: the bytes
    up to and including the first [delim], the reader after them, and
    whether the call failed; at end of input before a [delim] it returns
    what it read together with [io.EOF]. *)
Fixpoint ReadString (delim : ascii) (r : string) : string * string * bool :=
  match r with
  | EmptyString => (EmptyString, EmptyString, true)
  | String c r' =>
    if Ascii.eqb c delim then (String c EmptyString, r', false)
    else
      let '(s, r'', err) := ReadString delim r' in
      (String c s, r'', err)
  end.

Definition MaxScanTokenSize : Z := 64 * 1024.

(** The input is cut at every line feed ([cut LF]): the text of each line
    and, last, the text after the final line feed.  At end of input
    [ScanLines] yields that rest as a last line only when it is not
    empty. *)
Fixpoint rawLines (ls : list string) : list string :=
  match ls with
  | [] => []
  | [l] => if (String.length l =? 0)%nat then [] else [l]
  | l :: ls' => l :: rawLines ls'
  end.

(** [dropCR]: a line loses one trailing carriage return. *)
Definition dropCR (l : string) : string :=
  match rev_str l with
  | String c r => if Ascii.eqb c CR then rev_str r else l
  | EmptyString => l
  end.

(** A line that does not fit the scanner's buffer ([MaxScanTokenSize]
    bytes, line feed included) makes [Scan] return false with
    [ErrTooLong]: that line and all later ones are not delivered. *)
Fixpoint deliverable (ls : list string) : list string :=
  match ls with
  | [] => []
  | l :: ls' =>
    if len l <? MaxScanTokenSize
    then l :: deliverable ls' else []
  end.

(** The tokens [scanner.Text()] takes in [for scanner.Scan() { ... }] over
    a scanner on [input], in order. *)
Definition ScanLines (input : string) : list string :=
  map dropCR (deliverable (rawLines (cut LF input))).

End bufio.

(* ===================================================================== *)
(** ** Go's [crypto/sha256] (FIPS 180-4), on 32-bit words held in [Z] *)

Module sha256.

Definition w32 (x : Z) : Z := x mod 2 ^ 32.
Definition add32 (x y : Z) : Z := w32 (x + y).
Definition rotr (n x : Z) : Z :=
  Z.lor (Z.shiftr x n) (w32 (Z.shiftl x (32 - n))).
Definition not32 (x : Z) : Z := 2 ^ 32 - 1 - x.

Definition Ch (x y z : Z) : Z := Z.lxor (Z.land x y) (Z.land (not32 x) z).
Definition Maj (x y z : Z) : Z :=
  Z.lxor (Z.lxor (Z.land x y) (Z.land x z)) (Z.land y z).
Definition Sigma0 (x : Z) : Z :=
  Z.lxor (Z.lxor (rotr 2 x) (rotr 13 x)) (rotr 22 x).
Definition Sigma1 (x : Z) : Z :=
  Z.lxor (Z.lxor (rotr 6 x) (rotr 11 x)) (rotr 25 x).
Definition sigma0 (x : Z) : Z :=
  Z.lxor (Z.lxor (rotr 7 x) (rotr 18 x)) (Z.shiftr x 3).
Definition sigma1 (x : Z) : Z :=
  Z.lxor (Z.lxor (rotr 17 x) (rotr 19 x)) (Z.shiftr x 10).

(** The first [n] primes, by trial division. *)
Definition isPrime (p : Z) : bool :=
  (2 <=? p)
  && forallb (fun d => negb (p mod Z.of_nat d =? 0))
             (seq 2 (Z.to_nat p - 2)).

Definition primes (n : nat) : list Z :=
  firstn n (filter isPrime (map Z.of_nat (seq 2 310))).

(** The integer cube root, one bit at a time from bit [bits - 1] down. *)
Fixpoint cbrtBits (bits : nat) (n r : Z) : Z :=
  match bits with
  | O => r
  | S k =>
    let r' := r + 2 ^ Z.of_nat k in
    cbrtBits k n (if r' * r' * r' <=? n then r' else r)
  end.

(** The round constants: the first 32 bits of the fractional parts of the
    cube roots of the first 64 primes. *)
Definition K : list Z :=
  Eval vm_compute in
    map (fun p => w32 (cbrtBits 36 (p * 2 ^ 96) 0)) (primes 64).

(** The initial hash value: the first 32 bits of the fractional parts of
    the square roots of the first 8 primes. *)
Definition init : list Z :=
  Eval vm_compute in map (fun p => w32 (Z.sqrt (p * 2 ^ 64))) (primes 8).

(** Big-endian bytes of a [n]-byte unsigned value. *)
Fixpoint bigEndian (n : nat) (x : Z) : list Z :=
  match n with
  | O => []
  | S k => (Z.shiftr x (8 * Z.of_nat k)) mod 256 :: bigEndian k x
  end.

(** Padding: 0x80, zeros up to 56 mod 64, then the bit length on 8 bytes. *)
Definition pad (msg : list Z) : list Z :=
  let l := Z.of_nat (List.length msg) in
  let zeros := Z.to_nat ((55 - l) mod 64) in
  (msg ++ 0x80 :: repeat 0 zeros ++ bigEndian 8 (8 * l))%list.

Fixpoint words (n : nat) (bs : list Z) : list Z :=
  match n with
  | O => []
  | S k =>
    match bs with
    | a :: b :: c :: d :: bs' =>
      (Z.shiftl a 24 + Z.shiftl b 16 + Z.shiftl c 8 + d) :: words k bs'
    | _ => []
    end
  end.

(** The message schedule, newest word first: [w] holds W[t-1], W[t-2], ... *)
Fixpoint schedule (n : nat) (w : list Z) : list Z :=
  match n with
  | O => w
  | S k =>
    let w2 := nth 1 w 0 in
    let w7 := nth 6 w 0 in
    let w15 := nth 14 w 0 in
    let w16 := nth 15 w 0 in
    schedule k
      (add32 (add32 (sigma1 w2) w7) (add32 (sigma0 w15) w16) :: w)
  end.

Definition round (st : list Z) (kw : Z * Z) : list Z :=
  match st with
  | [a; b; c; d; e; f; g; h] =>
    let t1 :=
      add32 (add32 (add32 h (Sigma1 e)) (add32 (Ch e f g) (fst kw)))
            (snd kw) in
    let t2 := add32 (Sigma0 a) (Maj a b c) in
    [add32 t1 t2; a; b; c; add32 d t1; e; f; g]
  | _ => st
  end.

Definition block (h : list Z) (bs : list Z) : list Z :=
  let w := rev (schedule 48 (rev (words 16 bs))) in
  let st := fold_left round (combine K w) h in
  map (fun p => add32 (fst p) (snd p)) (combine h st).

Fixpoint blocks (n : nat) (h : list Z) (bs : list Z) : list Z :=
  match n with
  | O => h
  | S k => blocks k (block h (firstn 64 bs)) (skipn 64 bs)
  end.

(** [Sum256]: the 32 bytes of the digest of [msg]. *)
Definition Sum256 (msg : list Z) : list Z :=
  let p := pad msg in
  flat_map (bigEndian 4) (blocks (List.length p / 64) init p).

(** The running hash [sha256.New()]: the bytes written so far. *)
Definition digest : Type := list Z.
Definition New : digest := [].
Definition Write (h : digest) (p : list Z) : digest := (h ++ p)%list.
Definition Sum (h : digest) : list Z := Sum256 h.

End sha256.

(* ===================================================================== *)
(** ** [encoding/binary.Write] and [fmt] verbs *)

Module binary.

(** The dynamic type of the [interface{}] argument of [binary.Write], for
    the two types the package passes. *)
Inductive data : Type :=
| String_ (s : string)
| Uint64 (v : Z).

(** [LittleEndian.PutUint64]. *)
Fixpoint littleEndian (n : nat) (v : Z) : list Z :=
  match n with
  | O => []
  | S k => v mod 256 :: littleEndian k (Z.shiftr v 8)
  end.

(** [binary.Write(w, binary.LittleEndian, data)].  It encodes fixed-size
    values only: a [uint64] is written as its 8 bytes; a [string] has no
    fixed size, so [Write] returns the error "invalid type string" and
    writes nothing to [w]. The boolean is [err != nil]. *)
Definition Write (w : sha256.digest) (d : data) : sha256.digest * bool :=
  match d with
  | Uint64 v => (sha256.Write w (littleEndian 8 v), false)
  | String_ _ => (w, true)
  end.

End binary.

Module fmt.

Definition hexDigit (d : Z) : ascii :=
  if d <? 10 then bytechr (byteval "0" + d)
  else bytechr (byteval "a" + (d - 10)).

(** [Sprintf("%x", bytes)]: two lower-case hex digits per byte. *)
Fixpoint hex (bs : list Z) : string :=
  match bs with
  | [] => EmptyString
  | b :: bs' =>
    String (hexDigit (b / 16)) (String (hexDigit (b mod 16)) (hex bs'))
  end.

(** [Sprintf("%d", n)]. *)
Definition decimal (n : Z) : string := NilZero.string_of_int (Z.to_int n).

End fmt.

(* ===================================================================== *)
(** ** The operating system under the package *)

(** What the package asks of [os], [io/ioutil] and [path/filepath].  A call
    that returns [err != nil] is [None]. *)
Record OS : Type := {
  os_Stat : string -> option bool;           (* Some (fi.IsDir()) *)
  os_Readlink : string -> option string;
  os_Getpid : Z;
  filepath_Join : string -> string -> string;
  ioutil_ReadFile : string -> option string
}.

Module filepath.

(** [filepath.Split]: the path is cut after its last separator. *)
Fixpoint Split (path : string) : string * string :=
  match path with
  | EmptyString => (EmptyString, EmptyString)
  | String c p' =>
    let '(dir, file) := Split p' in
    if contains_byte "/" path
    then (String c dir, file)
    else (EmptyString, path)
  end.

End filepath.

(* ===================================================================== *)
(** ** Package [proc] *)

(** [type FileSystem struct]. *)
Record FileSystem : Type := { MountPoint : string }.

(** [type Cgroup struct]. *)
Record Cgroup : Type := {
  ID : Z;
  Controllers : list string;
  Path : string
}.

(** [type ProcessStatus struct]: the tokens of the status line and the
    memoised fields, zero until first asked for. *)
Record ProcessStatus : Type := {
  statFields : list string;
  pid : Z;
  comm : string;
  ppid : Z;
  startTime : Z;
  startStack : Z;
  uniqueID : string
}.

Definition set_pid (ps : ProcessStatus) (v : Z) : ProcessStatus :=
  {| statFields := statFields ps; pid := v; comm := comm ps; ppid := ppid ps;
     startTime := startTime ps; startStack := startStack ps;
     uniqueID := uniqueID ps |}.
Definition set_comm (ps : ProcessStatus) (v : string) : ProcessStatus :=
  {| statFields := statFields ps; pid := pid ps; comm := v; ppid := ppid ps;
     startTime := startTime ps; startStack := startStack ps;
     uniqueID := uniqueID ps |}.
Definition set_ppid (ps : ProcessStatus) (v : Z) : ProcessStatus :=
  {| statFields := statFields ps; pid := pid ps; comm := comm ps; ppid := v;
     startTime := startTime ps; startStack := startStack ps;
     uniqueID := uniqueID ps |}.
Definition set_startTime (ps : ProcessStatus) (v : Z) : ProcessStatus :=
  {| statFields := statFields ps; pid := pid ps; comm := comm ps;
     ppid := ppid ps; startTime := v; startStack := startStack ps;
     uniqueID := uniqueID ps |}.
Definition set_startStack (ps : ProcessStatus) (v : Z) : ProcessStatus :=
  {| statFields := statFields ps; pid := pid ps; comm := comm ps;
     ppid := ppid ps; startTime := startTime ps; startStack := v;
     uniqueID := uniqueID ps |}.
Definition set_uniqueID (ps : ProcessStatus) (v : string) : ProcessStatus :=
  {| statFields := statFields ps; pid := pid ps; comm := comm ps;
     ppid := ppid ps; startTime := startTime ps; startStack := startStack ps;
     uniqueID := v |}.

(** The package variables: the two [sync.Once] guards and what they set. *)
Record globals : Type := {
  procFSOnce : bool;
  procFS : option FileSystem;     (* a *FileSystem, nil at start *)
  bootIDOnce : bool;
  bootID : string
}.

Definition start : globals :=
  {| procFSOnce := false; procFS := None;
     bootIDOnce := false; bootID := EmptyString |}.

(** [int32(i)]. *)
Definition int32 (i : Z) : Z := (i + 2 ^ 31) mod 2 ^ 32 - 2 ^ 31.

Section Proc.

Variable os : OS.

(** [FS()]: the default procfs, set up and checked once. *)
Definition FS (g : globals) : result (option FileSystem * globals) :=
  if procFSOnce g then Ret (procFS g, g) else
  match os_Stat os "/proc" with
  | None => Abort (GlogFatal "/proc not found")
  | Some isDir =>
    if negb isDir then Abort (GlogFatal "/proc not a directory") else
    match os_Readlink os "/proc/self" with
    | None => Abort (GlogFatal "couldn't read /proc/self")
    | Some self =>
      let '(_, file) := filepath.Split self in
      let '(p, err) := strconv.Atoi file in
      match err with
      | Some _ =>
        Abort (GlogFatal ("Couldn't parse " ++ file ++ " as pid"))
      | None =>
        if negb (p =? os_Getpid os) then
          Abort (GlogFatal
                   ("/proc/self points to wrong pid: " ++ fmt.decimal p))
        else
          let fs := {| MountPoint := "/proc" |} in
          Ret (Some fs,
               {| procFSOnce := true; procFS := Some fs;
                  bootIDOnce := bootIDOnce g; bootID := bootID g |})
      end
    end
  end.

(** [fs.ReadFile(relativePath)]. *)
Definition FileSystem_ReadFile (fs : FileSystem) (relativePath : string)
  : option string :=
  ioutil_ReadFile os (filepath_Join os (MountPoint fs) relativePath).

(** A method call on the [*FileSystem] that [FS()] returned. *)
Definition onFS {A} (f : FileSystem -> A) (g : globals)
  : result (A * globals) :=
  '(fs, g') <- FS g ;;
  match fs with
  | Some fs => Ret (f fs, g')
  | None => Abort (PanicErr "nil pointer dereference")
  end.

(** [ReadFile(relativePath)] of the package. *)
Definition ReadFile (relativePath : string) (g : globals)
  : result (option string * globals) :=
  onFS (fun fs => FileSystem_ReadFile fs relativePath) g.

(** The loop of [CommandLine]; [fuel] bounds the calls of [ReadString]. *)
Fixpoint commandLineLoop (fuel : nat) (reader : string)
         (commandLine : list string) : list string :=
  match fuel with
  | O => commandLine
  | S k =>
    let '(s, reader', err) := bufio.ReadString NUL reader in
    if err then commandLine
    else if (1 <? String.length s)%nat then
      commandLineLoop k reader'
        (commandLine
           ++ [String.substring 0 (String.length s - 1) s])%list
    else commandLine
  end.

(** [fs.CommandLine(pid)]. *)
Definition FileSystem_CommandLine (fs : FileSystem) (pid : Z)
  : list string :=
  let filename := fmt.decimal pid ++ "/cmdline" in
  match FileSystem_ReadFile fs filename with
  | None => []
  | Some cmdline => commandLineLoop (S (String.length cmdline)) cmdline []
  end.

(** One turn of the loop of [Cgroups] on the line [t]. *)
Definition parseCgroup (t : string) : result Cgroup :=
  let parts := strings.Split t ":" in
  p0 <- index parts 0 ;;
  let '(id, err) := strconv.Atoi p0 in
  match err with
  | Some _ => Abort (GlogFatal ("Couldn't parse cgroup line: " ++ t))
  | None =>
    p1 <- index parts 1 ;;
    p2 <- index parts 2 ;;
    Ret {| ID := id; Controllers := strings.Split p1 ","; Path := p2 |}
  end.

Fixpoint cgroupsLoop (lines : list string) (cgroups : list Cgroup)
  : result (list Cgroup) :=
  match lines with
  | [] => Ret cgroups
  | t :: lines' =>
    c <- parseCgroup t ;;
    cgroupsLoop lines' (cgroups ++ [c])%list
  end.

(** [fs.Cgroups(pid)]. *)
Definition FileSystem_Cgroups (fs : FileSystem) (pid : Z)
  : result (list Cgroup) :=
  let filename := fmt.decimal pid ++ "/cgroup" in
  match FileSystem_ReadFile fs filename with
  | None => Ret []
  | Some cgroup => cgroupsLoop (bufio.ScanLines cgroup) []
  end.

Fixpoint containerIDLoop (cgroups : list Cgroup) : result string :=
  match cgroups with
  | [] => Ret EmptyString
  | pci :: rest =>
    if strings.HasPrefix (Path pci) "/docker" then
      let pathParts := strings.Split (Path pci) "/" in
      index pathParts 2
    else containerIDLoop rest
  end.

(** [fs.ContainerID(pid)]. *)
Definition FileSystem_ContainerID (fs : FileSystem) (pid : Z)
  : result string :=
  cgroups <- FileSystem_Cgroups fs pid ;;
  containerIDLoop cgroups.

(** [fs.Stat(pid)]: [None] is the nil [*ProcessStatus]. *)
Definition FileSystem_Stat (fs : FileSystem) (pid : Z)
  : option ProcessStatus :=
  match FileSystem_ReadFile fs (fmt.decimal pid ++ "/stat") with
  | None => None
  | Some stat =>
    Some {| statFields := strings.Fields stat; pid := 0;
            comm := EmptyString; ppid := 0; startTime := 0;
            startStack := 0; uniqueID := EmptyString |}
  end.

(** [ps.PID()]. *)
Definition ProcessStatus_PID (ps : ProcessStatus)
  : result (Z * ProcessStatus) :=
  if pid ps =? 0 then
    p <- index (statFields ps) 0 ;;
    let '(i, err) := strconv.ParseInt p 0 32 in
    match err with
    | Some _ => Abort (GlogFatal ("Couldn't parse PID: " ++ p))
    | None => let ps := set_pid ps (int32 i) in Ret (pid ps, ps)
    end
  else Ret (pid ps, ps).

(** [ps.Command()]. *)
Definition ProcessStatus_Command (ps : ProcessStatus)
  : result (string * ProcessStatus) :=
  if (String.length (comm ps) =? 0)%nat then
    c <- index (statFields ps) 1 ;;
    let ps := set_comm ps (strings.Trim c "()") in
    Ret (comm ps, ps)
  else Ret (comm ps, ps).

(** [ps.ParentPID()]. *)
Definition ProcessStatus_ParentPID (ps : ProcessStatus)
  : result (Z * ProcessStatus) :=
  if ppid ps =? 0 then
    p <- index (statFields ps) 3 ;;
    let '(i, err) := strconv.ParseInt p 0 32 in
    match err with
    | Some _ => Abort (GlogFatal ("Couldn't parse PPID: " ++ p))
    | None => let ps := set_ppid ps (int32 i) in Ret (ppid ps, ps)
    end
  else Ret (ppid ps, ps).

(** [ps.StartTime()]. *)
Definition ProcessStatus_StartTime (ps : ProcessStatus)
  : result (Z * ProcessStatus) :=
  if startTime ps =? 0 then
    st <- index (statFields ps) (22 - 1) ;;
    let '(i, err) := strconv.ParseUint st 0 64 in
    match err with
    | Some _ => Abort (GlogFatal ("Couldn't parse starttime: " ++ st))
    | None => let ps := set_startTime ps i in Ret (startTime ps, ps)
    end
  else Ret (startTime ps, ps).

(** [ps.StartStack()]. *)
Definition ProcessStatus_StartStack (ps : ProcessStatus)
  : result (Z * ProcessStatus) :=
  if startStack ps =? 0 then
    ss <- index (statFields ps) (28 - 1) ;;
    let '(i, err) := strconv.ParseUint ss 0 64 in
    match err with
    | Some _ => Abort (GlogFatal ("Couldn't parse startstack: " ++ ss))
    | None => let ps := set_startStack ps i in Ret (startStack ps, ps)
    end
  else Ret (startStack ps, ps).

(** [BootID()]: read once, then kept. *)
Definition BootID (g : globals) : result (string * globals) :=
  if bootIDOnce g then Ret (bootID g, g) else
  '(data, g) <- ReadFile "/sys/kernel/random/boot_id" g ;;
  match data with
  | None => Abort (PanicErr "/sys/kernel/random/boot_id")
  | Some data =>
    let g := {| procFSOnce := procFSOnce g; procFS := procFS g;
                bootIDOnce := true;
                bootID := strings.TrimSpace data |} in
    Ret (bootID g, g)
  end.

(** [ps.UniqueID()].  The three results of [binary.Write] are dropped, as
    the source drops them. *)
Definition ProcessStatus_UniqueID (ps : ProcessStatus) (g : globals)
  : result (string * ProcessStatus * globals) :=
  if (String.length (uniqueID ps) =? 0)%nat then
    let h := sha256.New in
    '(b, g) <- BootID g ;;
    let '(h, _) := binary.Write h (binary.String_ b) in
    '(ss, ps) <- ProcessStatus_StartStack ps ;;
    let '(h, _) := binary.Write h (binary.Uint64 ss) in
    '(st, ps) <- ProcessStatus_StartTime ps ;;
    let '(h, _) := binary.Write h (binary.Uint64 st) in
    let ps := set_uniqueID ps (fmt.hex (sha256.Sum h)) in
    Ret (uniqueID ps, ps, g)
  else Ret (uniqueID ps, ps, g).

(** [fs.UniqueID(pid)]. *)
Definition FileSystem_UniqueID (fs : FileSystem) (pid : Z) (g : globals)
  : result (string * globals) :=
  match FileSystem_Stat fs pid with
  | None => Ret (EmptyString, g)
  | Some ps =>
    '(id, _, g) <- ProcessStatus_UniqueID ps g ;;
    Ret (id, g)
  end.

(** The functions of the package on the default procfs. *)
Definition CommandLine (pid : Z) (g : globals)
  : result (list string * globals) :=
  onFS (fun fs => FileSystem_CommandLine fs pid) g.

Definition Stat (pid : Z) (g : globals)
  : result (option ProcessStatus * globals) :=
  onFS (fun fs => FileSystem_Stat fs pid) g.

Definition Cgroups (pid : Z) (g : globals)
  : result (list Cgroup * globals) :=
  '(r, g) <- onFS (fun fs => FileSystem_Cgroups fs pid) g ;;
  cs <- r ;; Ret (cs, g).

Definition ContainerID (pid : Z) (g : globals)
  : result (string * globals) :=
  '(r, g) <- onFS (fun fs => FileSystem_ContainerID fs pid) g ;;
  id <- r ;; Ret (id, g).

Definition UniqueID (pid : Z) (g : globals) : result (string * globals) :=
  '(k, g) <- onFS (fun fs => FileSystem_UniqueID fs pid) g ;;
  k g.

End Proc.

(* ===================================================================== *)
(** ** What the specification words say, for comparison with the code *)

(** "feed, in this exact order, (1) the boot identity bytes, (2) the start
    stack address as an 8-byte little-endian integer, (3) the start time as
    an 8-byte little-endian integer, into a cryptographic hash function
    (256-bit digest); hex-encode the resulting digest". *)
Definition spec_UniqueID (bootIdentity : string) (startStack startTime : Z)
  : string :=
  fmt.hex (sha256.Sum256 (bytes_of bootIdentity
                          ++ binary.littleEndian 8 startStack
                          ++ binary.littleEndian 8 startTime)%list).

(** What the code hashes: the two integers only. *)
Definition code_UniqueID (startStack startTime : Z) : string :=
  fmt.hex (sha256.Sum256 (binary.littleEndian 8 startStack
                          ++ binary.littleEndian 8 startTime)%list).

(** [s] cut at its first byte [d], if it has one. *)
Fixpoint cutFirst (d : ascii) (s : string) : option (string * string) :=
  match s with
  | EmptyString => None
  | String c s' =>
    if Ascii.eqb c d then Some (EmptyString, s')
    else
      match cutFirst d s' with
      | Some (a, b) => Some (String c a, b)
      | None => None
      end
  end.

(** "splitting is on the first two [:] delimiters": id, controllers, path. *)
Definition spec_splitCgroupLine (t : string)
  : option (string * string * string) :=
  match cutFirst ":" t with
  | Some (id, rest) =>
    match cutFirst ":" rest with
    | Some (controllers, path) => Some (id, controllers, path)
    | None => None
    end
  | None => None
  end.

Fixpoint dropTrailingEmpty (l : list string) : list string :=
  match l with
  | [] => []
  | [x] => if (String.length x =? 0)%nat then [] else [x]
  | x :: l' => x :: dropTrailingEmpty l'
  end.

(** "splitting on NUL bytes and dropping a trailing empty segment". *)
Definition spec_CommandLine (cmdline : string) : list string :=
  dropTrailingEmpty (cut NUL cmdline).

(** "a single layer of surrounding parentheses stripped". *)
Definition spec_stripOneLayer (token : string) : string :=
  match token with
  | String c rest =>
    if Ascii.eqb c "(" then
      match rev_str rest with
      | String d r => if Ascii.eqb d ")" then rev_str r else token
      | EmptyString => token
      end
    else token
  | EmptyString => token
  end.

(** The arguments up to the first empty one. *)
Fixpoint untilEmpty (l : list string) : list string :=
  match l with
  | [] => []
  | x :: l' => if (String.length x =? 0)%nat then [] else x :: untilEmpty l'
  end.

(* ===================================================================== *)
(** ** A procfs image to run the package on *)

Fixpoint lookupFile (path : string) (files : list (string * string))
  : option string :=
  match files with
  | [] => None
  | (p, data) :: rest =>
    if String.eqb p path then Some data else lookupFile path rest
  end.

(** An operating system whose process has id [self] and whose files are
    [files]; a path is joined to the mount point with one slash. *)
Definition imageOS (self : Z) (files : list (string * string)) : OS :=
  {| os_Stat := fun p => if String.eqb p "/proc" then Some true else None;
     os_Readlink := fun p =>
       if String.eqb p "/proc/self" then Some (fmt.decimal self) else None;
     os_Getpid := self;
     filepath_Join := fun dir rel =>
       dir ++ "/" ++ strings.trimLeftASCII rel "/";
     ioutil_ReadFile := fun p => lookupFile p files |}.

Definition procfs : FileSystem := {| MountPoint := "/proc" |}.

Definition nul : string := String NUL EmptyString.
Definition lf : string := String LF EmptyString.

(** The tokens of a status line as the kernel prints it: 52 fields. *)
Definition statTokens
           (pidTok commTok ppidTok startTimeTok startStackTok : string)
  : list string :=
  [ pidTok; commTok; "S"; ppidTok; "1234"; "1234"; "34816"; "1234";
    "4194304"; "1000"; "0"; "0"; "0"; "1"; "2"; "3"; "4"; "20"; "0"; "1";
    "0"; startTimeTok; "1000000"; "500"; "18446744073709551615"; "1"; "1";
    startStackTok; "140737488346000"; "1"; "0"; "0"; "0"; "0"; "0"; "0";
    "0"; "17"; "3"; "0"; "0"; "0"; "0"; "0"; "0"; "0"; "0"; "0"; "0"; "0";
    "0"; "0" ].

Definition statLine
           (pidTok commTok ppidTok startTimeTok startStackTok : string)
  : string :=
  String.concat " "
    (statTokens pidTok commTok ppidTok startTimeTok startStackTok) ++ lf.

(* ===================================================================== *)
(** ** Vocabulary of the properties *)

(** A token of a well-formed status line: not empty, ASCII, no white
    space. *)
Definition tokenByte (c : ascii) : bool :=
  (byteval c <? utf8.RuneSelf) && negb (strings.asciiSpace c).

Definition wellFormedToken (t : string) : Prop :=
  t <> EmptyString /\ forallb_str tokenByte t = true.

(** The bytes an integer literal is made of: digits, letters, underscore. *)
Definition numericByte (c : ascii) : bool :=
  strconv.isDigit c || strconv.isLetter c || Ascii.eqb c "_".

(** The value a call returned, without the record it updated. *)
Definition outcome {A : Type} (r : result (A * ProcessStatus)) : result A :=
  match r with
  | Ret (v, _) => Ret v
  | Abort e => Abort e
  end.

(** The no-break space U+00A0 in UTF-8. *)
Definition noBreakSpace : string :=
  String (bytechr 194) (String (bytechr 160) EmptyString).









(** A procfs with one process, 5: its status line, command line and cgroup
    membership, and the boot identity of the system. *)
Definition sampleImage : OS :=
  imageOS 77
    [("/proc/5/stat",
      statLine "1234" "(bash)" "1" "98765" "140737488347136");
     ("/proc/5/cmdline", "ls" ++ nul ++ "-la" ++ nul);
     ("/proc/5/cgroup",
      "1:cpu,cpuacct:/" ++ lf ++ "2:pids:/docker/abc123def456/init.scope"
      ++ lf);
     ("/proc/sys/kernel/random/boot_id", "abcd-ef" ++ lf)].

(** The package variables once [FS()] has run, and once [BootID()] has run
    too, on [sampleImage]. *)
Definition mountedGlobals : globals :=
  {| procFSOnce := true; procFS := Some procfs;
     bootIDOnce := false; bootID := EmptyString |}.

Definition sampleGlobals : globals :=
  {| procFSOnce := true; procFS := Some procfs;
     bootIDOnce := true; bootID := "abcd-ef" |}.

(** The record [Stat] returns for process 5 of [sampleImage]. *)
Definition sampleStatus : ProcessStatus :=
  {| statFields := statTokens "1234" "(bash)" "1" "98765" "140737488347136";
     pid := 0; comm := EmptyString; ppid := 0; startTime := 0;
     startStack := 0; uniqueID := EmptyString |}.

(** A record agrees with the line it was read from: the line is the text of
    the id, the controllers joined by commas, the path and what may follow,
    all joined by colons. *)
Definition recordOfLine (t : string) (c : Cgroup) : Prop :=
  exists idText rest,
    strconv.Atoi idText = (ID c, None)
    /\ t = String.concat ":" (idText :: String.concat "," (Controllers c)
                                     :: Path c :: rest)
    /\ contains_byte ":" (Path c) = false
    /\ Forall (fun x => contains_byte "," x = false
                        /\ contains_byte ":" x = false) (Controllers c)
    /\ Controllers c <> [].

(** A cgroup file written from (id, controllers, path) triples, one line
    each. *)
Definition cgroupLine (r : string * string * string) : string :=
  fst (fst r) ++ ":" ++ snd (fst r) ++ ":" ++ snd r.

Definition cgroupFile (rs : list (string * string * string)) : string :=
  fold_right (fun r file => cgroupLine r ++ String LF file) EmptyString rs.

Definition plainPart (x : string) : Prop :=
  contains_byte ":" x = false /\ contains_byte LF x = false
  /\ contains_byte CR x = false.

Definition wellFormedCgroup (r : string * string * string) : Prop :=
  plainPart (fst (fst r)) /\ plainPart (snd (fst r)) /\ plainPart (snd r)
  /\ snd (strconv.Atoi (fst (fst r))) = None
  /\ len (cgroupLine r) < bufio.MaxScanTokenSize.

Definition cgroupOf (r : string * string * string) : Cgroup :=
  {| ID := fst (strconv.Atoi (fst (fst r)));
     Controllers := strings.Split (snd (fst r)) ",";
     Path := snd r |}.

(** The digits [Sprintf("%x")] prints. *)
Definition isLowerHex (c : ascii) : bool :=
  inRange "0" "9" c || inRange "a" "f" c.

(** The value of bytes read least significant first. *)
Fixpoint fromLittleEndian (bs : list Z) : Z :=
  match bs with
  | [] => 0
  | b :: bs' => b + 256 * fromLittleEndian bs'
  end.

(** The value of decimal digits read after the value [acc]. *)
Fixpoint uintValue (d : Decimal.uint) (acc : Z) : Z :=
  match d with
  | Decimal.Nil => acc
  | Decimal.D0 d' => uintValue d' (acc * 10 + 0)
  | Decimal.D1 d' => uintValue d' (acc * 10 + 1)
  | Decimal.D2 d' => uintValue d' (acc * 10 + 2)
  | Decimal.D3 d' => uintValue d' (acc * 10 + 3)
  | Decimal.D4 d' => uintValue d' (acc * 10 + 4)
  | Decimal.D5 d' => uintValue d' (acc * 10 + 5)
  | Decimal.D6 d' => uintValue d' (acc * 10 + 6)
  | Decimal.D7 d' => uintValue d' (acc * 10 + 7)
  | Decimal.D8 d' => uintValue d' (acc * 10 + 8)
  | Decimal.D9 d' => uintValue d' (acc * 10 + 9)
  end.

(** A cmdline file as the kernel lays it out: each argument followed by a
    NUL byte. *)
Definition cmdlineFile (args : list string) : string :=
  fold_right (fun a file => a ++ String NUL file) EmptyString args.

(* ===================================================================== *)
(** * Properties *)

(** ** The library models on known values *)

(** The FIPS 180-4 test vectors, of one block and of two. *)
Example Sum256_abc :
  fmt.hex (sha256.Sum256 (bytes_of "abc"))
  = "ba7816bf8f01cfea414140de5dae2223b00361a396177a9cb410ff61f20015ad".
Proof. vm_compute. reflexivity. Qed.

Example Sum256_empty :
  fmt.hex (sha256.Sum256 (bytes_of ""))
  = "e3b0c44298fc1c149afbf4c8996fb92427ae41e4649b934ca495991b7852b855".
Proof. vm_compute. reflexivity. Qed.

Example Sum256_two_blocks :
  fmt.hex (sha256.Sum256
             (bytes_of
                "abcdbcdecdefdefgefghfghighijhijkijkljklmklmnlmnomnopnopq"))
  = "248d6a61d20638b8e5c026930c3e6039a33ce45964ff2167f6ecedd419db06c1".
Proof. vm_compute. reflexivity. Qed.

Example ParseInt_samples :
  map (fun s => strconv.ParseInt s 0 32)
      ["1234"; "-5"; "0x1F"; "010"; "1_000"; "2147483648"; "12a"; ""]
  = [(1234, None); (-5, None); (31, None); (8, None); (1000, None);
     (2147483647, Some strconv.ErrRange); (0, Some strconv.ErrSyntax);
     (0, Some strconv.ErrSyntax)].
Proof. vm_compute. reflexivity. Qed.

Example Fields_samples :
  strings.Fields ("  1 (a b)  S" ++ lf) = ["1"; "(a"; "b)"; "S"]
  /\ strings.Fields ("a" ++ string_of_bytes [0xC2; 0xA0] ++ "b") = ["a"; "b"].
Proof. split; vm_compute; reflexivity. Qed.

Example ScanLines_samples :
  bufio.ScanLines ("a" ++ lf ++ String CR lf ++ "c") = ["a"; ""; "c"]
  /\ bufio.ScanLines "" = [].
Proof. split; vm_compute; reflexivity. Qed.

(** [Cgroups] on the two lines of the specification's example. *)
Example Cgroups_sample :
  FileSystem_Cgroups
    (imageOS 77 [("/proc/5/cgroup",
                  "1:cpu,cpuacct:/" ++ lf ++ "2:pids:/user.slice" ++ lf)])
    procfs 5
  = Ret [{| ID := 1; Controllers := ["cpu"; "cpuacct"]; Path := "/" |};
         {| ID := 2; Controllers := ["pids"]; Path := "/user.slice" |}].
Proof. vm_compute. reflexivity. Qed.

(** ** Facts on byte strings *)

Lemma append_nil_r (s : string) : s ++ "" = s.
Proof. induction s as [| c s IH]; simpl; [| rewrite IH]; reflexivity. Qed.

Lemma append_assoc (a b c : string) : (a ++ b) ++ c = a ++ (b ++ c).
Proof. induction a as [| x a IH]; simpl; [| rewrite IH]; reflexivity. Qed.

Lemma length_append (a b : string) :
  String.length (a ++ b) = (String.length a + String.length b)%nat.
Proof. induction a as [| x a IH]; simpl; [| rewrite IH]; reflexivity. Qed.

Lemma substring_whole_prefix (a b : string) :
  String.substring 0 (String.length a) (a ++ b) = a.
Proof.
  induction a as [| x a IH]; simpl.
  - destruct b; reflexivity.
  - rewrite IH. reflexivity.
Qed.

Lemma cut_not_nil (d : ascii) (s : string) : cut d s <> [].
Proof.
  destruct s as [| c s]; simpl; [discriminate |].
  destruct (Ascii.eqb c d); [discriminate |].
  destruct (cut d s); discriminate.
Qed.

(** ** What the integer parser returns *)

Lemma digitValue_nonneg (c : ascii) (d : Z) :
  strconv.digitValue c = Some d -> 0 <= d.
Proof.
  unfold strconv.digitValue.
  destruct (strconv.isDigit c) eqn:Hd.
  - intros [= <-]. unfold strconv.isDigit, inRange in Hd.
    apply andb_prop in Hd as [Hlo _]. apply Z.leb_le in Hlo. lia.
  - destruct (strconv.isLetter c) eqn:Hl; [| discriminate].
    intros [= <-]. unfold strconv.isLetter, inRange in Hl.
    apply andb_prop in Hl as [Hlo _]. apply Z.leb_le in Hlo. lia.
Qed.

(** A value the digit loop returns without error lies within [0, maxVal]. *)
Lemma digitLoop_range (base0 : bool) (base cutoff maxVal : Z) (s : string) :
  0 <= base ->
  forall n us v us',
    0 <= n <= maxVal ->
    strconv.digitLoop base0 base cutoff maxVal s n us = (v, None, us') ->
    0 <= v <= maxVal.
Proof.
  intros Hbase. induction s as [| c s IH]; intros n us v us' Hn H.
  - injection H as <- _. exact Hn.
  - cbn [strconv.digitLoop] in H.
    destruct (Ascii.eqb c "_" && base0); [eapply IH; eauto |].
    destruct (strconv.digitValue c) as [d |] eqn:Hd; [| discriminate].
    apply digitValue_nonneg in Hd.
    destruct (base <=? d); [discriminate |].
    destruct (cutoff <=? n); [discriminate |].
    cbv zeta in H.
    destruct (strconv.maxUint64 <? n * base + d); [discriminate |].
    destruct (Z.ltb_spec maxVal (n * base + d)); [discriminate |].
    eapply IH; [| exact H]. nia.
Qed.

Lemma pickBase_nonneg (s : string) (b : Z) (digits : string) :
  strconv.pickBase s 0 = Some (b, digits) -> 0 <= b.
Proof.
  unfold strconv.pickBase. cbn [Z.leb Z.compare andb Z.eqb].
  destruct s as [| c0 s']; [intros [= <- _]; lia |].
  destruct (Ascii.eqb c0 "0"); [| intros [= <- _]; lia].
  destruct (strconv.basePrefix (String c0 s')) as [p |];
    [| intros [= <- _]; lia].
  destruct (3 <=? String.length (String c0 s'))%nat; [| intros [= <- _]; lia].
  destruct (Ascii.eqb p "b"); [intros [= <- _]; lia |].
  destruct (Ascii.eqb p "o"); intros [= <- _]; lia.
Qed.

(** [ParseUint(s, 0, bitSize)] without error returns a [bitSize]-bit
    unsigned value. *)
Lemma ParseUint_range (s : string) (bitSize v : Z) :
  0 < bitSize <= 64 ->
  strconv.ParseUint s 0 bitSize = (v, None) ->
  0 <= v <= 2 ^ bitSize - 1.
Proof.
  intros Hbits H. unfold strconv.ParseUint in H.
  destruct s as [| c0 s']; [discriminate |].
  destruct (strconv.pickBase (String c0 s') 0) as [[b digits] |] eqn:Hpick;
    [| discriminate].
  apply pickBase_nonneg in Hpick.
  destruct ((bitSize <? 0) || (64 <? bitSize)); [discriminate |].
  destruct (Z.eqb_spec bitSize 0) as [-> | _]; [lia |].
  cbv zeta in H.
  destruct (strconv.digitLoop (0 =? 0) b (strconv.maxUint64 / b + 1)
                              (2 ^ bitSize - 1) digits 0 false)
    as [[n err] us] eqn:Hloop.
  destruct err as [e |]; [discriminate |].
  assert (Hv : v = n).
  { destruct (us && negb (strconv.underscoreOK (String c0 s')));
      [discriminate | injection H as <-; reflexivity]. }
  subst v. eapply digitLoop_range; [exact Hpick | | exact Hloop].
  assert (0 < 2 ^ bitSize) by (apply Z.pow_pos_nonneg; lia). lia.
Qed.

(** A range error comes with the largest value. *)
Lemma digitLoop_ErrRange (base0 : bool) (base cutoff maxVal : Z) (s : string) :
  forall n us v us',
    strconv.digitLoop base0 base cutoff maxVal s n us
    = (v, Some strconv.ErrRange, us') ->
    v = maxVal.
Proof.
  induction s as [| c s IH]; intros n us v us' H; [discriminate |].
  cbn [strconv.digitLoop] in H.
  destruct (Ascii.eqb c "_" && base0); [eapply IH; eauto |].
  destruct (strconv.digitValue c) as [d |]; [| discriminate].
  destruct (base <=? d); [discriminate |].
  destruct (cutoff <=? n); [injection H as <- _; reflexivity |].
  cbv zeta in H.
  destruct (strconv.maxUint64 <? n * base + d);
    [injection H as <- _; reflexivity |].
  destruct (maxVal <? n * base + d); [injection H as <- _; reflexivity |].
  eapply IH; eauto.
Qed.

Lemma ParseUint_ErrRange (s : string) (base bitSize v : Z) :
  bitSize <> 0 ->
  strconv.ParseUint s base bitSize = (v, Some strconv.ErrRange) ->
  v = 2 ^ bitSize - 1.
Proof.
  intros Hbits H. unfold strconv.ParseUint in H.
  destruct s as [| c0 s']; [discriminate |].
  destruct (strconv.pickBase (String c0 s') base) as [[b digits] |];
    [| discriminate].
  destruct ((bitSize <? 0) || (64 <? bitSize)); [discriminate |].
  destruct (Z.eqb_spec bitSize 0) as [| _]; [contradiction |].
  cbv zeta in H.
  destruct (strconv.digitLoop (base =? 0) b (strconv.maxUint64 / b + 1)
                              (2 ^ bitSize - 1) digits 0 false)
    as [[n err] us] eqn:Hloop.
  destruct err as [e |].
  - injection H as <- ->. eapply digitLoop_ErrRange, Hloop.
  - destruct (us && negb (strconv.underscoreOK (String c0 s')));
      discriminate.
Qed.

(** [ParseInt(s, 0, 32)] without error returns a value of [int32], which
    the conversion [int32(i)] leaves as it is. *)
Lemma ParseInt_int32 (s : string) (v : Z) :
  strconv.ParseInt s 0 32 = (v, None) ->
  - 2 ^ 31 <= v < 2 ^ 31 /\ int32 v = v.
Proof.
  intros H.
  assert (Hr : - 2 ^ 31 <= v < 2 ^ 31).
  { unfold strconv.ParseInt in H.
    destruct s as [| c0 s']; [discriminate |].
    destruct (strconv.ParseUint
                (if Ascii.eqb c0 "+" || Ascii.eqb c0 "-" then s'
                 else String c0 s') 0 32) as [un err] eqn:Hun.
    assert (Hun' : 0 <= un <= 2 ^ 32 - 1
                   /\ (err = None \/ (err = Some strconv.ErrRange
                                      /\ un = 2 ^ 32 - 1))).
    { destruct err as [[] |]; try discriminate.
      - apply ParseUint_ErrRange in Hun; [| lia]. subst un.
        split; [lia | right; split; reflexivity].
      - split; [| left; reflexivity].
        apply ParseUint_range in Hun; lia. }
    destruct Hun' as [Hnn Herr].
    assert (H' : (if negb (Ascii.eqb c0 "-") && (2 ^ 31 <=? un)
                  then (2 ^ 31 - 1, Some strconv.ErrRange)
                  else if Ascii.eqb c0 "-" && (2 ^ 31 <? un)
                       then (- 2 ^ 31, Some strconv.ErrRange)
                       else (if Ascii.eqb c0 "-" then - un else un, None))
                 = (v, None)).
    { destruct Herr as [-> | [-> _]]; exact H. }
    clear H.
    destruct (Ascii.eqb c0 "-"); cbn [negb andb] in H'.
    - destruct (Z.ltb_spec (2 ^ 31) un); [discriminate |].
      injection H' as <-. lia.
    - destruct (Z.leb_spec (2 ^ 31) un); [discriminate |].
      injection H' as <-. lia. }
  split; [exact Hr |].
  unfold int32. rewrite Z.mod_small by lia. lia.
Qed.

(** ** Tokens the integer parser is sure to reject *)

Lemma digitValue_numericByte (c : ascii) (d : Z) :
  strconv.digitValue c = Some d -> numericByte c = true.
Proof.
  unfold strconv.digitValue, numericByte.
  destruct (strconv.isDigit c); [reflexivity |].
  destruct (strconv.isLetter c); [reflexivity | discriminate].
Qed.

(** The digit loop stops with an error on digits that hold a byte of no
    integer literal. *)
Lemma digitLoop_foreign_byte
      (base0 : bool) (base cutoff maxVal : Z) (s : string) :
  forallb_str numericByte s = false ->
  forall n us,
    exists v e us',
      strconv.digitLoop base0 base cutoff maxVal s n us = (v, Some e, us').
Proof.
  induction s as [| c s IH]; intros Hs n us; [discriminate |].
  cbn [forallb_str] in Hs. cbn [strconv.digitLoop].
  destruct (Ascii.eqb c "_" && base0) eqn:Hu.
  - apply andb_prop in Hu as [Hu _].
    unfold numericByte in Hs. rewrite Hu, !orb_true_r in Hs. apply IH, Hs.
  - destruct (strconv.digitValue c) as [d |] eqn:Hd; [| eauto].
    rewrite (digitValue_numericByte c Hd) in Hs.
    destruct (base <=? d); [eauto |].
    destruct (cutoff <=? n); [eauto |].
    cbv zeta.
    destruct (strconv.maxUint64 <? n * base + d); [eauto |].
    destruct (maxVal <? n * base + d); [eauto |].
    apply IH, Hs.
Qed.

Lemma pickBase_foreign_byte (s digits : string) (b : Z) :
  strconv.pickBase s 0 = Some (b, digits) ->
  forallb_str numericByte s = false ->
  forallb_str numericByte digits = false.
Proof.
  unfold strconv.pickBase. cbn [Z.leb Z.compare andb Z.eqb].
  destruct s as [| c0 s']; [intros [= _ <-]; auto |].
  destruct (Ascii.eqb_spec c0 "0") as [-> | _]; [| intros [= _ <-]; auto].
  destruct (strconv.basePrefix (String "0" s')) as [p |] eqn:Hp.
  - destruct s' as [| c1 s'']; [discriminate |].
    assert (Hc1 : numericByte c1 = true).
    { unfold strconv.basePrefix in Hp. cbn [Ascii.eqb andb] in Hp.
      change (Ascii.eqb "0" "0") with true in Hp. cbn [andb] in Hp.
      unfold numericByte, strconv.isLetter.
      destruct (Ascii.eqb_spec (lower c1) "b") as [-> | _];
        [rewrite orb_true_r; reflexivity |].
      destruct (Ascii.eqb_spec (lower c1) "o") as [-> | _];
        [rewrite orb_true_r; reflexivity |].
      destruct (Ascii.eqb_spec (lower c1) "x") as [-> | _];
        [rewrite orb_true_r; reflexivity | discriminate]. }
    intros Hpick Hs. cbn [forallb_str] in Hs. rewrite Hc1 in Hs.
    change (numericByte "0") with true in Hs. cbn [andb] in Hs.
    destruct (3 <=? String.length (String "0" (String c1 s'')))%nat.
    + destruct (Ascii.eqb p "b"); [injection Hpick as _ <-; exact Hs |].
      destruct (Ascii.eqb p "o"); injection Hpick as _ <-; exact Hs.
    + injection Hpick as _ <-. cbn [drop forallb_str].
      rewrite Hc1. exact Hs.
  - intros [= _ <-] Hs. exact Hs.
Qed.

(** [ParseUint(s, 0, bitSize)] rejects a token that holds a byte of no
    integer literal. *)
Lemma ParseUint_foreign_byte (s : string) (bitSize : Z) :
  forallb_str numericByte s = false ->
  snd (strconv.ParseUint s 0 bitSize) <> None.
Proof.
  intros Hs. unfold strconv.ParseUint.
  destruct s as [| c0 s']; [discriminate |].
  destruct (strconv.pickBase (String c0 s') 0) as [[b digits] |] eqn:Hpick;
    [| discriminate].
  destruct ((bitSize <? 0) || (64 <? bitSize)); [discriminate |].
  cbv zeta.
  destruct (digitLoop_foreign_byte
              (0 =? 0) b (strconv.maxUint64 / b + 1)
              (2 ^ (if bitSize =? 0 then strconv.IntSize else bitSize) - 1)
              digits (pickBase_foreign_byte _ Hpick Hs) 0 false)
    as (v & e & us & ->).
  discriminate.
Qed.

(** [ParseInt(s, 0, 32)] rejects a token that, after its sign, holds a byte
    of no integer literal. *)
Lemma ParseInt_foreign_byte (s : string) :
  forallb_str numericByte (strconv.stripSign s) = false ->
  snd (strconv.ParseInt s 0 32) <> None.
Proof.
  intros Hs. unfold strconv.ParseInt.
  destruct s as [| c0 s']; [discriminate |].
  assert (Hbody : (if Ascii.eqb c0 "+" || Ascii.eqb c0 "-" then s'
                   else String c0 s') = strconv.stripSign (String c0 s')).
  { cbn [strconv.stripSign]. rewrite orb_comm. reflexivity. }
  rewrite Hbody.
  pose proof (ParseUint_foreign_byte _ 32 Hs) as Herr.
  destruct (strconv.ParseUint (strconv.stripSign (String c0 s')) 0 32)
    as [un [e |]] eqn:Hun; [| contradiction Herr; reflexivity].
  destruct e; try discriminate.
  apply ParseUint_ErrRange in Hun; [| lia]. subst un.
  cbn [Z.eqb]. cbv zeta.
  destruct (Ascii.eqb c0 "-"); discriminate.
Qed.

(** ** The fields of a status line *)

Lemma lor_below_RuneSelf (a b : Z) :
  0 <= a < utf8.RuneSelf -> 0 <= b < utf8.RuneSelf ->
  0 <= Z.lor a b < utf8.RuneSelf.
Proof.
  unfold utf8.RuneSelf. intros Ha Hb.
  assert (Hnn : 0 <= Z.lor a b) by (apply Z.lor_nonneg; lia).
  split; [exact Hnn |].
  assert (Hs : Z.shiftr (Z.lor a b) 7 = 0).
  { rewrite Z.shiftr_lor, !Z.shiftr_div_pow2 by lia.
    change (2 ^ 7) with 128.
    rewrite (Z.div_small a), (Z.div_small b) by lia. reflexivity. }
  rewrite Z.shiftr_div_pow2 in Hs by lia. change (2 ^ 7) with 128 in Hs.
  apply Z.div_small_iff in Hs; lia.
Qed.

Lemma fold_lor_below_RuneSelf (l : list Z) :
  Forall (fun b => 0 <= b < utf8.RuneSelf) l ->
  forall acc, 0 <= acc < utf8.RuneSelf ->
              0 <= fold_left Z.lor l acc < utf8.RuneSelf.
Proof.
  induction 1 as [| b l Hb _ IH]; intros acc Hacc; simpl; [exact Hacc |].
  apply IH, lor_below_RuneSelf; assumption.
Qed.

Lemma byteval_nonneg (c : ascii) : 0 <= byteval c.
Proof. unfold byteval. lia. Qed.

Lemma bytes_of_ascii (s : string) :
  forallb_str (fun c => byteval c <? utf8.RuneSelf) s = true ->
  Forall (fun b => 0 <= b < utf8.RuneSelf) (bytes_of s).
Proof.
  induction s as [| c s IH]; simpl; intros H; constructor.
  - apply andb_prop in H as [Hc _]. apply Z.ltb_lt in Hc.
    split; [apply byteval_nonneg | exact Hc].
  - apply IH. apply andb_prop in H as [_ Hs]. exact Hs.
Qed.

(** On an ASCII string [Fields] takes its ASCII path. *)
Lemma Fields_ascii (s : string) :
  forallb_str (fun c => byteval c <? utf8.RuneSelf) s = true ->
  strings.Fields s = strings.fieldsASCII s None.
Proof.
  intros H. unfold strings.Fields, strings.setBits.
  pose proof (fold_lor_below_RuneSelf (bytes_of_ascii s H) (acc := 0)) as Hb.
  destruct (Z.leb_spec utf8.RuneSelf (fold_left Z.lor (bytes_of s) 0));
    [| reflexivity].
  unfold utf8.RuneSelf in *. lia.
Qed.

Lemma forallb_str_append (p : ascii -> bool) (a b : string) :
  forallb_str p (a ++ b) = forallb_str p a && forallb_str p b.
Proof.
  induction a as [| c a IH]; simpl; [reflexivity |].
  rewrite IH, andb_assoc. reflexivity.
Qed.

Lemma forallb_str_weaken (p q : ascii -> bool) (s : string) :
  (forall c, p c = true -> q c = true) ->
  forallb_str p s = true -> forallb_str q s = true.
Proof.
  intros Hpq. induction s as [| c s IH]; simpl; [reflexivity |].
  intros H. apply andb_prop in H as [Hc Hs].
  rewrite (Hpq c Hc), (IH Hs). reflexivity.
Qed.

(** Bytes that are no white space extend the open field. *)
Lemma fieldsASCII_run (t s w : string) :
  forallb_str tokenByte t = true ->
  strings.fieldsASCII (t ++ s) (Some w) = strings.fieldsASCII s (Some (w ++ t)).
Proof.
  revert w. induction t as [| c t IH]; intros w Ht; simpl.
  - rewrite append_nil_r. reflexivity.
  - simpl in Ht. apply andb_prop in Ht as [Hc Ht].
    unfold tokenByte in Hc. apply andb_prop in Hc as [_ Hc].
    apply negb_true_iff in Hc. rewrite Hc.
    rewrite IH by exact Ht. rewrite append_assoc. reflexivity.
Qed.

Lemma fieldsASCII_token (t s : string) :
  wellFormedToken t ->
  strings.fieldsASCII (t ++ s) None = strings.fieldsASCII s (Some t).
Proof.
  intros [Hne Ht]. destruct t as [| c t]; [contradiction |].
  simpl in Ht. apply andb_prop in Ht as [Hc Ht].
  unfold tokenByte in Hc. apply andb_prop in Hc as [_ Hc].
  apply negb_true_iff in Hc. simpl. rewrite Hc.
  apply (fieldsASCII_run t s (String c "")), Ht.
Qed.

(** The fields of a line of well-formed tokens joined by single spaces and
    ended by a line feed are those tokens. *)
Lemma fieldsASCII_line (toks : list string) :
  Forall wellFormedToken toks ->
  strings.fieldsASCII (String.concat " " toks ++ lf) None = toks.
Proof.
  induction 1 as [| t toks Ht Htoks IH]; [reflexivity |].
  destruct toks as [| t2 toks].
  - cbn [String.concat]. rewrite fieldsASCII_token by exact Ht. reflexivity.
  - change (String.concat " " (t :: t2 :: toks))
      with (t ++ " " ++ String.concat " " (t2 :: toks)).
    rewrite !append_assoc, fieldsASCII_token by exact Ht.
    cbn [append strings.fieldsASCII]. change (strings.asciiSpace " ") with true.
    cbv iota. rewrite IH. reflexivity.
Qed.

Lemma line_ascii (toks : list string) :
  Forall wellFormedToken toks ->
  forallb_str (fun c => byteval c <? utf8.RuneSelf)
              (String.concat " " toks ++ lf) = true.
Proof.
  intros H. rewrite forallb_str_append, andb_true_iff. split; [| reflexivity].
  induction H as [| t toks [_ Ht] Htoks IH]; [reflexivity |].
  assert (Ha : forallb_str (fun c => byteval c <? utf8.RuneSelf) t = true).
  { revert Ht. apply forallb_str_weaken. unfold tokenByte. intros c Hc.
    apply andb_prop in Hc as [Hc _]. exact Hc. }
  destruct toks as [| t2 toks]; [exact Ha |].
  change (String.concat " " (t :: t2 :: toks))
    with (t ++ " " ++ String.concat " " (t2 :: toks)).
  rewrite !forallb_str_append, Ha, IH. reflexivity.
Qed.

Lemma Fields_line (toks : list string) :
  Forall wellFormedToken toks ->
  strings.Fields (String.concat " " toks ++ lf) = toks.
Proof.
  intros H. rewrite Fields_ascii by (apply line_ascii, H).
  apply fieldsASCII_line, H.
Qed.

(** ** Unreadable targets *)

(** C5.  When the file behind a pid cannot be read, [Stat] returns the nil
    record, [UniqueID] the empty string (leaving the package variables as
    they were), [Cgroups] and [CommandLine] the nil slice; none of them
    ends the process. *)
Theorem C5_unreadable_target_is_absent
        (os : OS) (fs : FileSystem) (pid : Z) (g : globals) :
  (FileSystem_ReadFile os fs (fmt.decimal pid ++ "/stat") = None ->
   FileSystem_Stat os fs pid = None
   /\ FileSystem_UniqueID os fs pid g = Ret (EmptyString, g))
  /\ (FileSystem_ReadFile os fs (fmt.decimal pid ++ "/cgroup") = None ->
      FileSystem_Cgroups os fs pid = Ret [])
  /\ (FileSystem_ReadFile os fs (fmt.decimal pid ++ "/cmdline") = None ->
      FileSystem_CommandLine os fs pid = []).
Proof.
  unfold FileSystem_UniqueID, FileSystem_Stat, FileSystem_Cgroups,
    FileSystem_CommandLine.
  split; [| split]; intros ->; auto.
Qed.

Lemma C5_unreadable_target_witness :
  (FileSystem_Stat (imageOS 77 []) procfs 5 = None
   /\ FileSystem_UniqueID (imageOS 77 []) procfs 5 start
      = Ret (EmptyString, start))
  /\ FileSystem_Cgroups (imageOS 77 []) procfs 5 = Ret []
  /\ FileSystem_CommandLine (imageOS 77 []) procfs 5 = [].
Proof.
  destruct (C5_unreadable_target_is_absent (imageOS 77 []) procfs 5 start)
    as (Hstat & Hcgroup & Hcmdline).
  split; [apply Hstat; reflexivity |].
  split; [apply Hcgroup; reflexivity | apply Hcmdline; reflexivity].
Defined.

(** ** The unique identity token *)

(** [binary.Write] leaves the hash untouched when handed a string. *)
Lemma binary_Write_string (h : sha256.digest) (s : string) :
  binary.Write h (binary.String_ s) = (h, true).
Proof. reflexivity. Qed.

#[local] Opaque sha256.Sum256 fmt.hex binary.littleEndian.

(** On a fresh record whose start stack and start time tokens parse,
    [ps.UniqueID()] is the hex digest of those two integers alone, whatever
    [BootID()] returned. *)
Lemma ProcessStatus_UniqueID_token
      (os : OS) (ps : ProcessStatus) (g g' : globals) (b sst stt : string)
      (ss st : Z) :
  uniqueID ps = EmptyString -> startStack ps = 0 -> startTime ps = 0 ->
  BootID os g = Ret (b, g') ->
  nth_error (statFields ps) 27 = Some sst ->
  strconv.ParseUint sst 0 64 = (ss, None) ->
  nth_error (statFields ps) 21 = Some stt ->
  strconv.ParseUint stt 0 64 = (st, None) ->
  exists ps',
    ProcessStatus_UniqueID os ps g = Ret (code_UniqueID ss st, ps', g').
Proof.
  intros Hu Hss Hst Hb Hn27 Hp27 Hn21 Hp21.
  unfold ProcessStatus_UniqueID.
  rewrite Hu, Hb. cbn [String.length Nat.eqb bind].
  rewrite binary_Write_string.
  unfold ProcessStatus_StartStack, index.
  change (28 - 1)%nat with 27%nat.
  rewrite Hss, Hn27. cbn [Z.eqb bind]. rewrite Hp27. cbn [bind].
  unfold ProcessStatus_StartTime, index.
  change (22 - 1)%nat with 21%nat.
  cbn [startTime startStack set_startStack statFields].
  rewrite Hst, Hn21. cbn [Z.eqb bind]. rewrite Hp21. cbn [bind].
  eexists. unfold code_UniqueID, binary.Write, sha256.Sum, sha256.Write,
    sha256.New.
  cbn [uniqueID set_uniqueID startTime set_startTime app].
  reflexivity.
Qed.

#[local] Transparent sha256.Sum256 fmt.hex binary.littleEndian.
(** C1 (the code departs from the claim).  On a status line with start
    stack 140737488347136 and start time 98765, under the boot identity
    [abcd-ef] and under the boot identity [0123-45], [UniqueID] returns the
    same token: the digest of the two integers.  The boot identity was
    read, but its bytes never reached the hash.  The token the claim
    describes, with the boot identity hashed first, is another one. *)
Theorem C1_UniqueID_omits_boot_identity :
  let stat := statLine "1234" "(bash)" "1" "98765" "140737488347136" in
  let osA := imageOS 77 [("/proc/5/stat", stat);
                         ("/proc/sys/kernel/random/boot_id", "abcd-ef" ++ lf)] in
  let osB := imageOS 77 [("/proc/5/stat", stat);
                         ("/proc/sys/kernel/random/boot_id", "0123-45" ++ lf)] in
  let token :=
    "2e14d8e1612a4bacd8d0c957b30bfdf145e954b7a0fea083bd2eb4ff0bfcf5b5" in
  code_UniqueID 140737488347136 98765 = token
  /\ FileSystem_UniqueID osA procfs 5 start
     = Ret (token, {| procFSOnce := true; procFS := Some procfs;
                      bootIDOnce := true; bootID := "abcd-ef" |})
  /\ FileSystem_UniqueID osB procfs 5 start
     = Ret (token, {| procFSOnce := true; procFS := Some procfs;
                      bootIDOnce := true; bootID := "0123-45" |})
  /\ spec_UniqueID "abcd-ef" 140737488347136 98765
     = "b86dc7d8d3df7723f80ff4c1c8c99825e29818240065eb930f90adf1fda61beb"
  /\ spec_UniqueID "abcd-ef" 140737488347136 98765 <> token
  /\ spec_UniqueID "abcd-ef" 140737488347136 98765
     <> spec_UniqueID "0123-45" 140737488347136 98765.
Proof.
  cbv zeta.
  split; [vm_compute; reflexivity |].
  split; [vm_compute; reflexivity |].
  split; [vm_compute; reflexivity |].
  split; [vm_compute; reflexivity |].
  split; intros H; vm_compute in H; discriminate H.
Qed.

(** ** The status line and its positions *)

(** C8 (the code departs from the claim).  The status line of a process
    named [Web Content] has 1234 as field 1, 1 as field 4, 98765 as field 22
    and 140737488347136 as field 28.  [Stat] cuts it at white space, so the
    name gives two tokens and every later field stands one position further:
    [PID] returns 1234, [ParentPID] ends the process on the state letter
    [S] of field 3, [StartTime] returns the 0 of field 21 and [StartStack]
    the 1 of field 27.  A name with a no-break space (U+00A0) is cut the same
    way. *)
Theorem C8_fields_shift_after_spaced_name :
  let fields :=
    statTokens "1234" "(Web Content)" "1" "98765" "140737488347136" in
  let os := imageOS 77 [("/proc/5/stat", String.concat " " fields ++ lf)] in
  let os' := imageOS 77
               [("/proc/5/stat",
                 statLine "1234" ("(Web" ++ noBreakSpace ++ "Content)") "1"
                          "98765" "140737488347136")] in
  (nth_error fields (1 - 1) = Some "1234"
   /\ nth_error fields (3 - 1) = Some "S"
   /\ nth_error fields (4 - 1) = Some "1"
   /\ nth_error fields (21 - 1) = Some "0"
   /\ nth_error fields (22 - 1) = Some "98765"
   /\ nth_error fields (27 - 1) = Some "1"
   /\ nth_error fields (28 - 1) = Some "140737488347136")
  /\ option_map (fun ps => firstn 5 (statFields ps))
                (FileSystem_Stat os procfs 5)
     = Some ["1234"; "(Web"; "Content)"; "S"; "1"]
  /\ option_map (fun ps => outcome (ProcessStatus_PID ps))
                (FileSystem_Stat os procfs 5) = Some (Ret 1234)
  /\ option_map (fun ps => outcome (ProcessStatus_ParentPID ps))
                (FileSystem_Stat os procfs 5)
     = Some (Abort (GlogFatal "Couldn't parse PPID: S"))
  /\ option_map (fun ps => outcome (ProcessStatus_StartTime ps))
                (FileSystem_Stat os procfs 5) = Some (Ret 0)
  /\ option_map (fun ps => outcome (ProcessStatus_StartStack ps))
                (FileSystem_Stat os procfs 5) = Some (Ret 1)
  /\ option_map (fun ps => firstn 5 (statFields ps))
                (FileSystem_Stat os' procfs 5)
     = Some ["1234"; "(Web"; "Content)"; "S"; "1"]
  /\ option_map (fun ps => outcome (ProcessStatus_ParentPID ps))
                (FileSystem_Stat os' procfs 5)
     = Some (Abort (GlogFatal "Couldn't parse PPID: S"))
  /\ option_map (fun ps => outcome (ProcessStatus_StartTime ps))
                (FileSystem_Stat os' procfs 5) = Some (Ret 0)
  /\ option_map (fun ps => outcome (ProcessStatus_StartStack ps))
                (FileSystem_Stat os' procfs 5) = Some (Ret 1).
Proof.
  cbv zeta.
  split; [repeat split |].
  split; [vm_compute; reflexivity |].
  split; [vm_compute; reflexivity |].
  split; [vm_compute; reflexivity |].
  split; [vm_compute; reflexivity |].
  split; [vm_compute; reflexivity |].
  split; [vm_compute; reflexivity |].
  split; [vm_compute; reflexivity |].
  split; [vm_compute; reflexivity |].
  vm_compute; reflexivity.
Qed.

(** ** A cgroup line whose id is rejected *)


Lemma index_head (parts : list string) :
  parts <> [] -> index parts 0 = Ret (hd EmptyString parts).
Proof. destruct parts; [contradiction | reflexivity]. Qed.



(** ** The command name *)

Lemma rev_str_append (a b : string) :
  rev_str (a ++ b) = rev_str b ++ rev_str a.
Proof.
  induction a as [| c a IH]; simpl.
  - rewrite append_nil_r. reflexivity.
  - rewrite IH, append_assoc. reflexivity.
Qed.

Lemma rev_str_involutive (s : string) : rev_str (rev_str s) = s.
Proof.
  induction s as [| c s IH]; simpl; [reflexivity |].
  rewrite rev_str_append, IH. reflexivity.
Qed.

Lemma contains_byte_append (c : ascii) (a b : string) :
  contains_byte c (a ++ b) = contains_byte c a || contains_byte c b.
Proof.
  induction a as [| d a IH]; [reflexivity |].
  cbn [append contains_byte]. rewrite IH, orb_assoc. reflexivity.
Qed.

Lemma contains_byte_rev (c : ascii) (s : string) :
  contains_byte c (rev_str s) = contains_byte c s.
Proof.
  induction s as [| d s IH]; [reflexivity |].
  cbn [rev_str contains_byte].
  rewrite contains_byte_append, IH. cbn [contains_byte].
  rewrite orb_false_r, orb_comm. reflexivity.
Qed.

(** Trimming stops at once on a string that starts with no parenthesis. *)
Lemma trimLeftASCII_plain (s rest : string) :
  contains_byte "(" s = false -> contains_byte ")" s = false ->
  s <> EmptyString ->
  strings.trimLeftASCII (s ++ rest) "()" = s ++ rest.
Proof.
  intros Ho Hc Hne. destruct s as [| d s']; [contradiction |].
  cbn [contains_byte] in Ho, Hc. apply orb_false_elim in Ho as [Ho _].
  apply orb_false_elim in Hc as [Hc _].
  cbn [append strings.trimLeftASCII contains_byte].
  rewrite (Ascii.eqb_sym d "("), Ho, (Ascii.eqb_sym d ")"), Hc.
  reflexivity.
Qed.

(** [Trim] recovers a name without parentheses from its parenthesised
    token. *)
Lemma Trim_plain_name (name : string) :
  contains_byte "(" name = false -> contains_byte ")" name = false ->
  strings.Trim ("(" ++ name ++ ")") "()" = name.
Proof.
  intros Ho Hc. unfold strings.Trim, strings.trimRightASCII.
  destruct name as [| d name'] eqn:E; [reflexivity |]. rewrite <- E in *.
  assert (Hne : name <> EmptyString) by (rewrite E; discriminate).
  assert (Hrne : rev_str name <> EmptyString).
  { intros Hr. apply Hne. rewrite <- (rev_str_involutive name), Hr.
    reflexivity. }
  change ("(" ++ name ++ ")") with (String "(" (name ++ ")")).
  cbn [rev_str]. rewrite rev_str_append. cbn [rev_str append].
  change (strings.trimLeftASCII
            (String ")" (rev_str name ++ "(")) "()")
    with (strings.trimLeftASCII (rev_str name ++ "(") "()").
  rewrite trimLeftASCII_plain
    by (try rewrite contains_byte_rev; assumption).
  rewrite rev_str_append, rev_str_involutive. cbn [rev_str append].
  change (strings.trimLeftASCII (String "(" name) "()")
    with (strings.trimLeftASCII name "()").
  pose proof (@trimLeftASCII_plain name "" Ho Hc Hne) as Hl.
  rewrite append_nil_r in Hl. exact Hl.
Qed.

(** On a fresh record whose second token is a parenthesised name with no
    parenthesis inside, [Command] returns that name. *)
Lemma Command_plain_name (ps : ProcessStatus) (name : string) :
  comm ps = EmptyString ->
  nth_error (statFields ps) 1 = Some ("(" ++ name ++ ")") ->
  contains_byte "(" name = false -> contains_byte ")" name = false ->
  ProcessStatus_Command ps = Ret (name, set_comm ps name).
Proof.
  intros Hcomm Htok Ho Hc. unfold ProcessStatus_Command, index.
  rewrite Hcomm, Htok. cbn [String.length Nat.eqb bind].
  rewrite Trim_plain_name by assumption. reflexivity.
Qed.

(** C3 (the code departs from the claim).  For the command name [(sd-pam)],
    printed by the kernel as [((sd-pam))], [Command] returns [sd-pam]:
    [strings.Trim] removes every leading and trailing parenthesis, not one
    layer.  For the command name [Web Content], which has no parenthesis,
    the second token is [(Web] and [Command] returns [Web]. *)
Theorem C3_Command_strips_every_layer :
  let osA := imageOS 77
               [("/proc/5/stat",
                 statLine "1234" "((sd-pam))" "1" "98765" "140737488347136")] in
  let osB := imageOS 77
               [("/proc/5/stat",
                 statLine "1234" "(Web Content)" "1" "98765"
                          "140737488347136")] in
  option_map (fun ps => nth_error (statFields ps) 1)
             (FileSystem_Stat osA procfs 5) = Some (Some "((sd-pam))")
  /\ option_map (fun ps => match ProcessStatus_Command ps with
                           | Ret (c, _) => Some c
                           | Abort _ => None
                           end) (FileSystem_Stat osA procfs 5)
     = Some (Some "sd-pam")
  /\ spec_stripOneLayer "((sd-pam))" = "(sd-pam)"
  /\ strings.Trim "((x))" "()" = "x"
  /\ spec_stripOneLayer "((x))" = "(x)"
  /\ option_map (fun ps => match ProcessStatus_Command ps with
                           | Ret (c, _) => Some c
                           | Abort _ => None
                           end) (FileSystem_Stat osB procfs 5)
     = Some (Some "Web").
Proof.
  cbv zeta. repeat split; vm_compute; reflexivity.
Qed.

(** ** The command line *)

(** One call of [ReadString] takes the first segment of the cut: with its
    delimiter if another segment follows, with [io.EOF] if it is the last. *)
Lemma ReadString_cut (d : ascii) (r : string) :
  match cut d r with
  | [] => False
  | [x] => bufio.ReadString d r = (x, EmptyString, true)
  | x :: rest =>
    exists r', bufio.ReadString d r = (x ++ String d EmptyString, r', false)
               /\ cut d r' = rest
               /\ (String.length r' < String.length r)%nat
  end.
Proof.
  induction r as [| c r IH]; simpl; [reflexivity |].
  destruct (Ascii.eqb_spec c d) as [-> | Hne].
  - pose proof (cut_not_nil d r) as Hnil.
    destruct (cut d r) as [| y ys] eqn:E; [contradiction |].
    exists r. simpl. repeat split; auto.
  - destruct (cut d r) as [| y [| z zs]] eqn:E; [contradiction | |].
    + rewrite IH. reflexivity.
    + destruct IH as (r' & HR & Hcut & Hlen).
      exists r'. rewrite HR. simpl. repeat split; auto.
Qed.

Lemma untilEmpty_removelast_cons (x y : string) (l : list string) :
  untilEmpty (removelast (x :: y :: l))
  = if (String.length x =? 0)%nat then []
    else x :: untilEmpty (removelast (y :: l)).
Proof. reflexivity. Qed.

(** With fuel for every byte of the reader, the loop of [CommandLine]
    appends the segments that end in NUL, up to the first empty one. *)
Lemma commandLineLoop_cut (fuel : nat) :
  forall (reader : string) (acc : list string),
    (String.length reader < fuel)%nat ->
    commandLineLoop fuel reader acc
    = (acc ++ untilEmpty (removelast (cut NUL reader)))%list.
Proof.
  induction fuel as [| fuel IH]; intros reader acc Hfuel; [lia |].
  cbn [commandLineLoop].
  pose proof (ReadString_cut NUL reader) as HR.
  destruct (cut NUL reader) as [| x [| y ys]] eqn:E; [contradiction | |].
  - rewrite HR. simpl. rewrite app_nil_r. reflexivity.
  - destruct HR as (r' & HR & Hcut & Hlen).
    rewrite HR, untilEmpty_removelast_cons.
    rewrite length_append. cbn [String.length].
    replace (String.length x + 1 - 1)%nat with (String.length x) by lia.
    rewrite substring_whole_prefix.
    destruct (String.length x) as [| n] eqn:Hx.
    + simpl. rewrite app_nil_r. reflexivity.
    + replace (1 <? S n + 1)%nat with true
        by (symmetry; apply Nat.ltb_lt; lia).
      cbn [Nat.eqb].
      rewrite IH by lia. rewrite Hcut, <- app_assoc. reflexivity.
Qed.

Lemma untilEmpty_all_nonempty (l : list string) :
  Forall (fun x => String.length x <> 0%nat) l -> untilEmpty l = l.
Proof.
  induction 1 as [| x l Hx _ IH]; simpl; [reflexivity |].
  destruct (String.length x); [contradiction |]. simpl. rewrite IH.
  reflexivity.
Qed.

Lemma dropTrailingEmpty_removelast (l : list string) :
  last l "x" = EmptyString -> dropTrailingEmpty l = removelast l.
Proof.
  induction l as [| x [| y l] IH]; intros Hlast; [reflexivity | |].
  - simpl in Hlast. subst x. reflexivity.
  - change (dropTrailingEmpty (x :: y :: l))
      with (x :: dropTrailingEmpty (y :: l)).
    change (removelast (x :: y :: l)) with (x :: removelast (y :: l)).
    rewrite IH; [reflexivity | exact Hlast].
Qed.

(** [CommandLine] on any readable file: the segments that end in NUL, up to
    the first empty one. *)
Lemma CommandLine_cut
      (os : OS) (fs : FileSystem) (pid : Z) (cmdline : string) :
  FileSystem_ReadFile os fs (fmt.decimal pid ++ "/cmdline") = Some cmdline ->
  FileSystem_CommandLine os fs pid = untilEmpty (removelast (cut NUL cmdline)).
Proof.
  intros Hread. unfold FileSystem_CommandLine. rewrite Hread.
  rewrite commandLineLoop_cut by lia. reflexivity.
Qed.

(** C7 (the code departs from the claim).  On the readable cmdline file
    [a\0\0b\0], the arguments [a], the empty string and [b], the code stops
    at the empty argument and returns [a] alone, where splitting on NUL and
    dropping the trailing empty segment gives [a; ""; b].  On [ls\0-la], where
    no NUL follows the last argument, the code returns [ls] alone: the bytes
    after the last NUL are read with [io.EOF] and never appended. *)
Theorem C7_CommandLine_stops_at_empty_argument :
  let os := imageOS 77
              [("/proc/6/cmdline", "a" ++ nul ++ nul ++ "b" ++ nul);
               ("/proc/7/cmdline", "ls" ++ nul ++ "-la")] in
  FileSystem_ReadFile os procfs (fmt.decimal 6 ++ "/cmdline")
  = Some ("a" ++ nul ++ nul ++ "b" ++ nul)
  /\ FileSystem_CommandLine os procfs 6 = ["a"]
  /\ spec_CommandLine ("a" ++ nul ++ nul ++ "b" ++ nul) = ["a"; ""; "b"]
  /\ FileSystem_ReadFile os procfs (fmt.decimal 7 ++ "/cmdline")
     = Some ("ls" ++ nul ++ "-la")
  /\ FileSystem_CommandLine os procfs 7 = ["ls"]
  /\ spec_CommandLine ("ls" ++ nul ++ "-la") = ["ls"; "-la"].
Proof.
  cbv zeta.
  split; [vm_compute; reflexivity |].
  split; [vm_compute; reflexivity |].
  split; [vm_compute; reflexivity |].
  split; [vm_compute; reflexivity |].
  split; vm_compute; reflexivity.
Qed.

(** ** Cgroup membership lines *)

(** Splitting at a one-byte separator: bytes other than the separator go to
    the element being collected. *)
Lemma genSplit_byte_run (d : ascii) (a s cur : string) :
  contains_byte d a = false ->
  strings.genSplit (String d "") (a ++ s) 0 cur
  = strings.genSplit (String d "") s 0 (cur ++ a).
Proof.
  revert cur. induction a as [| c a IH]; intros cur Ha; simpl.
  - rewrite append_nil_r. reflexivity.
  - simpl in Ha. apply orb_false_elim in Ha as [Hc Ha].
    destruct (ascii_dec d c) as [-> | Hne].
    + rewrite Ascii.eqb_refl in Hc. discriminate.
    + rewrite IH by exact Ha. rewrite append_assoc. reflexivity.
Qed.

Lemma genSplit_byte_sep (d : ascii) (s cur : string) :
  strings.genSplit (String d "") (String d s) 0 cur
  = cur :: strings.genSplit (String d "") s 0 "".
Proof.
  simpl. destruct (ascii_dec d d) as [_ | Hne]; [| contradiction].
  destruct s; reflexivity.
Qed.

Lemma genSplit_byte_last (d : ascii) (a cur : string) :
  contains_byte d a = false ->
  strings.genSplit (String d "") a 0 cur = [cur ++ a].
Proof.
  intros Ha. rewrite <- (append_nil_r a) at 1.
  rewrite genSplit_byte_run by exact Ha. reflexivity.
Qed.

(** A line [id:controllers:path] whose three parts hold no colon and whose
    id is an integer gives the record of those parts. *)
Lemma parseCgroup_three_parts (id controllers path : string) (v : Z) :
  contains_byte ":" id = false ->
  contains_byte ":" controllers = false ->
  contains_byte ":" path = false ->
  strconv.Atoi id = (v, None) ->
  parseCgroup (id ++ ":" ++ controllers ++ ":" ++ path)
  = Ret {| ID := v; Controllers := strings.Split controllers ",";
           Path := path |}.
Proof.
  intros Hid Hc Hp Hv. unfold parseCgroup, strings.Split.
  rewrite genSplit_byte_run by exact Hid.
  change (":" ++ controllers ++ ":" ++ path)
    with (String ":" (controllers ++ String ":" path)).
  rewrite genSplit_byte_sep, genSplit_byte_run by exact Hc.
  rewrite genSplit_byte_sep, genSplit_byte_last by exact Hp.
  cbn [index nth_error bind append]. rewrite Hv. reflexivity.
Qed.

(** When every line gives a record, the loop returns the records one per
    line, in the order of the lines. *)
Lemma cgroupsLoop_records (lines : list string) (cs : list Cgroup) :
  Forall2 (fun t c => parseCgroup t = Ret c) lines cs ->
  forall acc, cgroupsLoop lines acc = Ret (acc ++ cs)%list.
Proof.
  induction 1 as [| t c lines cs Ht _ IH]; intros acc; cbn [cgroupsLoop].
  - rewrite app_nil_r. reflexivity.
  - rewrite Ht. cbn [bind]. rewrite IH, <- app_assoc. reflexivity.
Qed.

(** C2 (the code departs from the claim).  On the readable cgroup file
    holding the line [1:name=systemd:/a:b], [Cgroups] returns the path
    [/a]: the line is split at every colon and the third part taken.
    Splitting at the first two colons only gives the path [/a:b]. *)
Theorem C2_Cgroups_cuts_path_at_colon :
  let os := imageOS 77 [("/proc/6/cgroup", "1:name=systemd:/a:b" ++ lf)] in
  FileSystem_ReadFile os procfs (fmt.decimal 6 ++ "/cgroup")
  = Some ("1:name=systemd:/a:b" ++ lf)
  /\ strings.Split "1:name=systemd:/a:b" ":" = ["1"; "name=systemd"; "/a"; "b"]
  /\ FileSystem_Cgroups os procfs 6
     = Ret [{| ID := 1; Controllers := ["name=systemd"]; Path := "/a" |}]
  /\ spec_splitCgroupLine "1:name=systemd:/a:b"
     = Some ("1", "name=systemd", "/a:b").
Proof.
  cbv zeta. repeat split; vm_compute; reflexivity.
Qed.

(** ** The container identity *)

Lemma containerIDLoop_none (cs : list Cgroup) :
  Forall (fun p => strings.HasPrefix (Path p) "/docker" = false) cs ->
  containerIDLoop cs = Ret EmptyString.
Proof.
  induction 1 as [| p cs Hp _ IH]; simpl; [reflexivity |].
  rewrite Hp. exact IH.
Qed.

Lemma containerIDLoop_first (pre post : list Cgroup) (c : Cgroup) :
  Forall (fun p => strings.HasPrefix (Path p) "/docker" = false) pre ->
  strings.HasPrefix (Path c) "/docker" = true ->
  containerIDLoop (pre ++ c :: post) = index (strings.Split (Path c) "/") 2.
Proof.
  intros Hpre Hc.
  induction Hpre as [| p pre' Hp _ IH]; simpl.
  - rewrite Hc. reflexivity.
  - rewrite Hp. exact IH.
Qed.

(** The third component of [/docker/<token><rest>] is [<token>] when the
    token has no slash and [rest] is empty or starts a further component. *)
Lemma Split_docker_path (token rest : string) :
  contains_byte "/" token = false ->
  rest = EmptyString \/ (exists r, rest = String "/" r) ->
  nth_error (strings.Split ("/docker/" ++ token ++ rest) "/") 2 = Some token.
Proof.
  intros Htok Hrest. unfold strings.Split.
  change ("/docker/" ++ token ++ rest)
    with (String "/" ("docker" ++ String "/" (token ++ rest))).
  rewrite genSplit_byte_sep, genSplit_byte_run by reflexivity.
  rewrite genSplit_byte_sep, genSplit_byte_run by exact Htok.
  cbn [nth_error append].
  destruct Hrest as [-> | (r & ->)].
  - reflexivity.
  - rewrite genSplit_byte_sep. reflexivity.
Qed.

(** C6.  Over the records [Cgroups] returned, [ContainerID] returns the
    empty string when no path begins with [/docker]; otherwise it takes the
    first record whose path does, splits that path on [/] and returns the
    third component, which for a path [/docker/<token>...] is the token
    after [/docker/]; the path [/docker/abc123def456/init.scope] yields
    [abc123def456]. *)
Theorem C6_ContainerID_first_docker_path
        (os : OS) (fs : FileSystem) (pid : Z) (cs : list Cgroup) :
  FileSystem_Cgroups os fs pid = Ret cs ->
  (Forall (fun p => strings.HasPrefix (Path p) "/docker" = false) cs ->
   FileSystem_ContainerID os fs pid = Ret EmptyString)
  /\ (forall pre c post third,
         cs = (pre ++ c :: post)%list ->
         Forall (fun p => strings.HasPrefix (Path p) "/docker" = false) pre ->
         strings.HasPrefix (Path c) "/docker" = true ->
         nth_error (strings.Split (Path c) "/") 2 = Some third ->
         FileSystem_ContainerID os fs pid = Ret third)
  /\ (forall pre c post token rest,
         cs = (pre ++ c :: post)%list ->
         Forall (fun p => strings.HasPrefix (Path p) "/docker" = false) pre ->
         Path c = "/docker/" ++ token ++ rest ->
         contains_byte "/" token = false ->
         rest = EmptyString \/ (exists r, rest = String "/" r) ->
         FileSystem_ContainerID os fs pid = Ret token)
  /\ nth_error (strings.Split "/docker/abc123def456/init.scope" "/") 2
     = Some "abc123def456".
Proof.
  intros Hcs. unfold FileSystem_ContainerID. rewrite Hcs. cbn [bind].
  split; [apply containerIDLoop_none |].
  assert (Hthird : forall pre c post third,
             cs = (pre ++ c :: post)%list ->
             Forall (fun p => strings.HasPrefix (Path p) "/docker" = false)
                    pre ->
             strings.HasPrefix (Path c) "/docker" = true ->
             nth_error (strings.Split (Path c) "/") 2 = Some third ->
             containerIDLoop cs = Ret third).
  { intros pre c post third -> Hpre Hc Hn.
    rewrite containerIDLoop_first by assumption.
    unfold index. rewrite Hn. reflexivity. }
  split; [exact Hthird |].
  split; [| reflexivity].
  intros pre c post token rest Heq Hpre Hpath Htok Hrest.
  apply (Hthird pre c post token Heq Hpre).
  - rewrite Hpath. reflexivity.
  - rewrite Hpath. apply Split_docker_path; assumption.
Qed.

Lemma C6_ContainerID_witness :
  FileSystem_ContainerID
    (imageOS 77 [("/proc/6/cgroup",
                  "1:name=systemd:/user.slice" ++ lf
                  ++ "2:pids:/docker/abc123def456/init.scope" ++ lf)])
    procfs 6 = Ret "abc123def456".
Proof.
  refine (proj1 (proj2 (proj2
    (C6_ContainerID_first_docker_path
       (imageOS 77 [("/proc/6/cgroup",
                     "1:name=systemd:/user.slice" ++ lf
                     ++ "2:pids:/docker/abc123def456/init.scope" ++ lf)])
       procfs 6
       (cs := [{| ID := 1; Controllers := ["name=systemd"];
                  Path := "/user.slice" |};
               {| ID := 2; Controllers := ["pids"];
                  Path := "/docker/abc123def456/init.scope" |}])
       _)))
    [{| ID := 1; Controllers := ["name=systemd"]; Path := "/user.slice" |}]
    {| ID := 2; Controllers := ["pids"];
       Path := "/docker/abc123def456/init.scope" |}
    [] "abc123def456" "/init.scope" _ _ _ _ _).
  - vm_compute. reflexivity.
  - reflexivity.
  - repeat constructor.
  - reflexivity.
  - reflexivity.
  - right. exists "init.scope". reflexivity.
Defined.

(** ** Index panics *)

(** The loop of [ContainerID] panics on the first path with the prefix
    whenever that path has fewer than three components. *)
Lemma containerIDLoop_short_path (pre post : list Cgroup) (c : Cgroup) :
  Forall (fun p => strings.HasPrefix (Path p) "/docker" = false) pre ->
  strings.HasPrefix (Path c) "/docker" = true ->
  (List.length (strings.Split (Path c) "/") <= 2)%nat ->
  containerIDLoop (pre ++ c :: post)
  = Abort (IndexOutOfRange 2 (List.length (strings.Split (Path c) "/"))).
Proof.
  intros Hpre Hc Hlen.
  induction Hpre as [| p pre' Hp _ IH]; simpl.
  - rewrite Hc. unfold index.
    destruct (nth_error (strings.Split (Path c) "/") 2) eqn:E; [| reflexivity].
    assert (2 < List.length (strings.Split (Path c) "/"))%nat
      by (apply nth_error_Some; rewrite E; discriminate).
    lia.
  - rewrite Hp. exact IH.
Qed.

(** C9.  There is a readable cgroup file, the single line [1:cpu:/docker],
    on which [ContainerID] finds the prefix, splits the path into two
    components only and panics on [pathParts[2]]: it returns neither the
    empty string nor a token. *)
Theorem C9_ContainerID_index_out_of_range :
  exists (os : OS) (pid : Z) (content : string),
    FileSystem_ReadFile os procfs (fmt.decimal pid ++ "/cgroup") = Some content
    /\ FileSystem_Cgroups os procfs pid
       = Ret [{| ID := 1; Controllers := ["cpu"]; Path := "/docker" |}]
    /\ strings.HasPrefix "/docker" "/docker" = true
    /\ strings.Split "/docker" "/" = [""; "docker"]
    /\ FileSystem_ContainerID os procfs pid = Abort (IndexOutOfRange 2 2).
Proof.
  exists (imageOS 77 [("/proc/7/cgroup", "1:cpu:/docker" ++ lf)]), 7,
    ("1:cpu:/docker" ++ lf).
  repeat split; vm_compute; reflexivity.
Qed.

(** C10.  There are readable cgroup files on which [Cgroups] panics on an
    index instead of taking the [glog.Fatalf] path of a malformed record:
    the line [1:cpu] has two parts and [parts[2]] is out of range, the line
    [1] has one part and [parts[1]] is out of range. *)
Theorem C10_Cgroups_index_out_of_range :
  exists (os : OS) (pid2 pid1 : Z),
    FileSystem_ReadFile os procfs (fmt.decimal pid2 ++ "/cgroup")
    = Some ("1:cpu" ++ lf)
    /\ strings.Split "1:cpu" ":" = ["1"; "cpu"]
    /\ FileSystem_Cgroups os procfs pid2 = Abort (IndexOutOfRange 2 2)
    /\ FileSystem_ReadFile os procfs (fmt.decimal pid1 ++ "/cgroup")
       = Some ("1" ++ lf)
    /\ FileSystem_Cgroups os procfs pid1 = Abort (IndexOutOfRange 1 1)
    /\ isFatal (FileSystem_Cgroups os procfs pid2) = false
    /\ isFatal (FileSystem_Cgroups os procfs pid1) = false.
Proof.
  exists (imageOS 77 [("/proc/8/cgroup", "1:cpu" ++ lf);
                      ("/proc/9/cgroup", "1" ++ lf)]), 8, 9.
  repeat split; vm_compute; reflexivity.
Qed.

(* ===================================================================== *)
(** * Further properties of the package *)

(** ** The two [sync.Once] guards *)

(** X1.  Once [FS()] has returned, every later call returns the same handle
    and leaves the package variables alone, whatever the operating system
    then shows: the checks of /proc run once. *)
Theorem FS_runs_once (os os' : OS) (g g' : globals) (fs : option FileSystem) :
  FS os g = Ret (fs, g') ->
  procFSOnce g' = true /\ FS os' g' = Ret (fs, g').
Proof.
  unfold FS. destruct (procFSOnce g) eqn:Honce.
  - intros [= <- <-]. rewrite Honce. split; reflexivity.
  - destruct (os_Stat os "/proc") as [[|] |]; cbn [negb]; try discriminate.
    destruct (os_Readlink os "/proc/self") as [self |]; [| discriminate].
    destruct (filepath.Split self) as [dir file].
    destruct (strconv.Atoi file) as [p [e |]]; [discriminate |].
    destruct (negb (p =? os_Getpid os)); [discriminate |].
    intros [= <- <-]. split; reflexivity.
Qed.

Lemma FS_runs_once_witness :
  procFSOnce mountedGlobals = true
  /\ FS (imageOS 1 []) mountedGlobals = Ret (Some procfs, mountedGlobals).
Proof.
  apply (@FS_runs_once sampleImage (imageOS 1 []) start mountedGlobals
                       (Some procfs)).
  vm_compute. reflexivity.
Defined.

(** X2.  Once [BootID()] has returned, every later call returns the same
    string without reading anything: the boot identity is read once and
    never refreshed. *)
Theorem BootID_reads_once (os os' : OS) (g g' : globals) (b : string) :
  BootID os g = Ret (b, g') ->
  bootIDOnce g' = true /\ bootID g' = b /\ BootID os' g' = Ret (b, g').
Proof.
  unfold BootID. destruct (bootIDOnce g) eqn:Honce.
  - intros [= <- <-]. rewrite Honce. repeat split.
  - destruct (ReadFile os "/sys/kernel/random/boot_id" g)
      as [[[data |] g1] | e]; cbn [bind]; try discriminate.
    intros [= <- <-]. repeat split.
Qed.

Lemma BootID_reads_once_witness :
  bootIDOnce sampleGlobals = true
  /\ bootID sampleGlobals = "abcd-ef"
  /\ BootID (imageOS 1 []) sampleGlobals = Ret ("abcd-ef", sampleGlobals).
Proof.
  apply (@BootID_reads_once sampleImage (imageOS 1 []) start sampleGlobals
                            "abcd-ef").
  vm_compute. reflexivity.
Defined.

(** ** Memoised fields *)

(** X3.  Each accessor of a status record is memoised soundly: asking again
    the record it returned gives the same value and the same record, and
    the tokens of the status line are never changed. *)
Theorem accessors_memoised (ps : ProcessStatus) :
  (forall v ps', ProcessStatus_PID ps = Ret (v, ps') ->
                 ProcessStatus_PID ps' = Ret (v, ps')
                 /\ statFields ps' = statFields ps)
  /\ (forall v ps', ProcessStatus_Command ps = Ret (v, ps') ->
                    ProcessStatus_Command ps' = Ret (v, ps')
                    /\ statFields ps' = statFields ps)
  /\ (forall v ps', ProcessStatus_ParentPID ps = Ret (v, ps') ->
                    ProcessStatus_ParentPID ps' = Ret (v, ps')
                    /\ statFields ps' = statFields ps)
  /\ (forall v ps', ProcessStatus_StartTime ps = Ret (v, ps') ->
                    ProcessStatus_StartTime ps' = Ret (v, ps')
                    /\ statFields ps' = statFields ps)
  /\ (forall v ps', ProcessStatus_StartStack ps = Ret (v, ps') ->
                    ProcessStatus_StartStack ps' = Ret (v, ps')
                    /\ statFields ps' = statFields ps).
Proof.
  unfold ProcessStatus_PID, ProcessStatus_Command, ProcessStatus_ParentPID,
    ProcessStatus_StartTime, ProcessStatus_StartStack, index.
  split; [| split; [| split; [| split]]]; intros v ps'.
  - destruct (_ =? 0) eqn:Hz.
    + destruct (nth_error (statFields ps) 0) as [tok |] eqn:Hn;
        cbn [bind]; [| discriminate].
      destruct (strconv.ParseInt tok 0 32) as [i [e |]] eqn:Hp;
        [discriminate |].
      cbv zeta. intros [= <- <-]. cbn -[strconv.ParseInt nth_error].
      split; [| reflexivity].
      destruct (int32 i =? 0); [| reflexivity].
      rewrite Hn. cbn [bind]. rewrite Hp. reflexivity.
    + intros [= <- <-]. rewrite Hz. split; reflexivity.
  - destruct (_ =? 0)%nat eqn:Hz.
    + destruct (nth_error (statFields ps) 1) as [tok |] eqn:Hn;
        cbn [bind]; [| discriminate].
      cbv zeta. intros [= <- <-]. cbn -[strings.Trim nth_error String.length].
      split; [| reflexivity].
      destruct (String.length (strings.Trim tok "()") =? 0)%nat;
        [| reflexivity].
      rewrite Hn. reflexivity.
    + intros [= <- <-]. rewrite Hz. split; reflexivity.
  - destruct (_ =? 0) eqn:Hz.
    + destruct (nth_error (statFields ps) 3) as [tok |] eqn:Hn;
        cbn [bind]; [| discriminate].
      destruct (strconv.ParseInt tok 0 32) as [i [e |]] eqn:Hp;
        [discriminate |].
      cbv zeta. intros [= <- <-]. cbn -[strconv.ParseInt nth_error].
      split; [| reflexivity].
      destruct (int32 i =? 0); [| reflexivity].
      rewrite Hn. cbn [bind]. rewrite Hp. reflexivity.
    + intros [= <- <-]. rewrite Hz. split; reflexivity.
  - change (22 - 1)%nat with 21%nat.
    destruct (_ =? 0) eqn:Hz.
    + destruct (nth_error (statFields ps) 21) as [tok |] eqn:Hn;
        cbn [bind]; [| discriminate].
      destruct (strconv.ParseUint tok 0 64) as [i [e |]] eqn:Hp;
        [discriminate |].
      cbv zeta. intros [= <- <-]. cbn -[strconv.ParseUint nth_error].
      split; [| reflexivity].
      destruct (i =? 0); [| reflexivity].
      rewrite Hn. cbn [bind]. rewrite Hp. reflexivity.
    + intros [= <- <-]. rewrite Hz. split; reflexivity.
  - change (28 - 1)%nat with 27%nat.
    destruct (_ =? 0) eqn:Hz.
    + destruct (nth_error (statFields ps) 27) as [tok |] eqn:Hn;
        cbn [bind]; [| discriminate].
      destruct (strconv.ParseUint tok 0 64) as [i [e |]] eqn:Hp;
        [discriminate |].
      cbv zeta. intros [= <- <-]. cbn -[strconv.ParseUint nth_error].
      split; [| reflexivity].
      destruct (i =? 0); [| reflexivity].
      rewrite Hn. cbn [bind]. rewrite Hp. reflexivity.
    + intros [= <- <-]. rewrite Hz. split; reflexivity.
Qed.

Lemma accessors_memoised_witness :
  (ProcessStatus_PID (set_pid sampleStatus 1234)
   = Ret (1234, set_pid sampleStatus 1234)
   /\ statFields (set_pid sampleStatus 1234) = statFields sampleStatus)
  /\ (ProcessStatus_Command (set_comm sampleStatus "bash")
      = Ret ("bash", set_comm sampleStatus "bash")
      /\ statFields (set_comm sampleStatus "bash") = statFields sampleStatus).
Proof.
  destruct (accessors_memoised sampleStatus) as (Hpid & Hcomm & _).
  split; [apply Hpid | apply Hcomm]; vm_compute; reflexivity.
Defined.

(** ** What [UniqueID] computes *)

(** X4.  For a readable status file whose fields 28 and 22 parse, and a
    boot identity that can be read, [UniqueID] returns the lower-case hex
    SHA-256 digest of the start stack followed by the start time, each as 8
    little-endian bytes.  The result mentions neither the pid, the mount
    point nor the boot identity: it is the same from every pid namespace. *)
Theorem UniqueID_is_digest_of_start_stack_and_time
        (os : OS) (fs : FileSystem) (pid : Z) (g g' : globals)
        (content b sst stt : string) (ss st : Z) :
  FileSystem_ReadFile os fs (fmt.decimal pid ++ "/stat") = Some content ->
  nth_error (strings.Fields content) (28 - 1) = Some sst ->
  strconv.ParseUint sst 0 64 = (ss, None) ->
  nth_error (strings.Fields content) (22 - 1) = Some stt ->
  strconv.ParseUint stt 0 64 = (st, None) ->
  BootID os g = Ret (b, g') ->
  FileSystem_UniqueID os fs pid g
  = Ret (fmt.hex (sha256.Sum256 (binary.littleEndian 8 ss
                                 ++ binary.littleEndian 8 st)%list), g').
Proof.
  intros Hread Hn27 Hp27 Hn21 Hp21 Hboot.
  unfold FileSystem_UniqueID, FileSystem_Stat. rewrite Hread.
  edestruct (@ProcessStatus_UniqueID_token os) as (ps' & ->);
    [.. | exact Hboot | exact Hn27 | exact Hp27 | exact Hn21 | exact Hp21 |];
    reflexivity.
Qed.

Lemma UniqueID_is_digest_witness :
  FileSystem_UniqueID sampleImage procfs 5 mountedGlobals
  = Ret (fmt.hex (sha256.Sum256 (binary.littleEndian 8 140737488347136
                                 ++ binary.littleEndian 8 98765)%list),
         sampleGlobals).
Proof.
  apply (@UniqueID_is_digest_of_start_stack_and_time
           sampleImage procfs 5 mountedGlobals sampleGlobals
           (statLine "1234" "(bash)" "1" "98765" "140737488347136")
           "abcd-ef" "140737488347136" "98765");
    vm_compute; reflexivity.
Defined.

(** X5.  On a readable status file with fewer than 28 fields (an empty file,
    a truncated line) [UniqueID] does not return the empty string: once the
    boot identity is read it panics on [statFields[27]]. *)
Theorem UniqueID_short_status_line_panics
        (os : OS) (fs : FileSystem) (pid : Z) (g g' : globals)
        (content b : string) :
  FileSystem_ReadFile os fs (fmt.decimal pid ++ "/stat") = Some content ->
  (List.length (strings.Fields content) < 28)%nat ->
  BootID os g = Ret (b, g') ->
  FileSystem_UniqueID os fs pid g
  = Abort (IndexOutOfRange 27 (List.length (strings.Fields content))).
Proof.
  intros Hread Hlen Hboot.
  unfold FileSystem_UniqueID, FileSystem_Stat. rewrite Hread.
  unfold ProcessStatus_UniqueID. cbn [uniqueID String.length Nat.eqb].
  rewrite Hboot. cbn [bind]. rewrite binary_Write_string.
  unfold ProcessStatus_StartStack, index. cbn [startStack statFields Z.eqb].
  change (28 - 1)%nat with 27%nat.
  destruct (nth_error (strings.Fields content) 27) as [tok |] eqn:Hn.
  - assert (27 < List.length (strings.Fields content))%nat
      by (apply nth_error_Some; rewrite Hn; discriminate).
    lia.
  - reflexivity.
Qed.

Lemma UniqueID_short_status_line_witness :
  FileSystem_UniqueID
    (imageOS 77 [("/proc/5/stat", "");
                 ("/proc/sys/kernel/random/boot_id", "abcd-ef" ++ lf)])
    procfs 5 mountedGlobals
  = Abort (IndexOutOfRange 27 0).
Proof.
  apply (@UniqueID_short_status_line_panics
           (imageOS 77 [("/proc/5/stat", "");
                        ("/proc/sys/kernel/random/boot_id", "abcd-ef" ++ lf)])
           procfs 5 mountedGlobals sampleGlobals "" "abcd-ef").
  - reflexivity.
  - vm_compute. lia.
  - vm_compute. reflexivity.
Defined.

(** ** Tokens that are surely fatal *)

(** X6.  On a record [Stat] returned, a pid or parent pid token that, after
    its sign, holds a byte other than a digit, a letter or an underscore
    ends the process in [PID] or [ParentPID]; so does such a start time or
    start stack token, for which a sign is such a byte, in [StartTime] or
    [StartStack]. *)
Theorem foreign_byte_in_numeric_field_is_fatal
        (os : OS) (fs : FileSystem) (pid : Z) (ps : ProcessStatus)
        (tok : string) :
  FileSystem_Stat os fs pid = Some ps ->
  (nth_error (statFields ps) 0 = Some tok ->
   forallb_str numericByte (strconv.stripSign tok) = false ->
   ProcessStatus_PID ps = Abort (GlogFatal ("Couldn't parse PID: " ++ tok)))
  /\ (nth_error (statFields ps) 3 = Some tok ->
      forallb_str numericByte (strconv.stripSign tok) = false ->
      ProcessStatus_ParentPID ps
      = Abort (GlogFatal ("Couldn't parse PPID: " ++ tok)))
  /\ (nth_error (statFields ps) 21 = Some tok ->
      forallb_str numericByte tok = false ->
      ProcessStatus_StartTime ps
      = Abort (GlogFatal ("Couldn't parse starttime: " ++ tok)))
  /\ (nth_error (statFields ps) 27 = Some tok ->
      forallb_str numericByte tok = false ->
      ProcessStatus_StartStack ps
      = Abort (GlogFatal ("Couldn't parse startstack: " ++ tok))).
Proof.
  intros Hstat. unfold FileSystem_Stat in Hstat.
  destruct (FileSystem_ReadFile os fs (fmt.decimal pid ++ "/stat"))
    as [stat |]; [| discriminate].
  injection Hstat as <-.
  unfold ProcessStatus_PID, ProcessStatus_ParentPID,
    ProcessStatus_StartTime, ProcessStatus_StartStack, index.
  change (22 - 1)%nat with 21%nat. change (28 - 1)%nat with 27%nat.
  cbn -[strconv.ParseInt strconv.ParseUint strings.Fields nth_error
        String.append].
  split; [| split; [| split]]; intros -> Hbad; cbn [bind].
  - apply ParseInt_foreign_byte in Hbad.
    destruct (strconv.ParseInt tok 0 32) as [i [e |]];
      [reflexivity | contradiction Hbad; reflexivity].
  - apply ParseInt_foreign_byte in Hbad.
    destruct (strconv.ParseInt tok 0 32) as [i [e |]];
      [reflexivity | contradiction Hbad; reflexivity].
  - apply (ParseUint_foreign_byte _ 64) in Hbad.
    destruct (strconv.ParseUint tok 0 64) as [i [e |]];
      [reflexivity | contradiction Hbad; reflexivity].
  - apply (ParseUint_foreign_byte _ 64) in Hbad.
    destruct (strconv.ParseUint tok 0 64) as [i [e |]];
      [reflexivity | contradiction Hbad; reflexivity].
Qed.

Lemma foreign_byte_in_numeric_field_witness :
  ProcessStatus_PID
    {| statFields := strings.Fields (statLine "12.4" "(bash)" "1" "-7" "0");
       pid := 0; comm := EmptyString; ppid := 0; startTime := 0;
       startStack := 0; uniqueID := EmptyString |}
  = Abort (GlogFatal "Couldn't parse PID: 12.4")
  /\ ProcessStatus_StartTime
       {| statFields := strings.Fields (statLine "12.4" "(bash)" "1" "-7" "0");
          pid := 0; comm := EmptyString; ppid := 0; startTime := 0;
          startStack := 0; uniqueID := EmptyString |}
     = Abort (GlogFatal "Couldn't parse starttime: -7").
Proof.
  split.
  - refine (proj1 (@foreign_byte_in_numeric_field_is_fatal
                     (imageOS 77 [("/proc/5/stat",
                                   statLine "12.4" "(bash)" "1" "-7" "0")])
                     procfs 5 _ "12.4" _) _ _);
      vm_compute; reflexivity.
  - refine (proj1 (proj2 (proj2
              (@foreign_byte_in_numeric_field_is_fatal
                 (imageOS 77 [("/proc/5/stat",
                               statLine "12.4" "(bash)" "1" "-7" "0")])
                 procfs 5 _ "-7" _))) _ _);
      vm_compute; reflexivity.
Defined.

(** ** Command names the code recovers *)

(** X7.  For a status line of well-formed tokens whose second token is a
    name in parentheses, the name holding no parenthesis, [Command] returns
    exactly that name. *)
Theorem Command_recovers_plain_name
        (os : OS) (fs : FileSystem) (pid : Z) (toks : list string)
        (name : string) :
  Forall wellFormedToken toks ->
  FileSystem_ReadFile os fs (fmt.decimal pid ++ "/stat")
  = Some (String.concat " " toks ++ lf) ->
  nth_error toks 1 = Some ("(" ++ name ++ ")") ->
  contains_byte "(" name = false -> contains_byte ")" name = false ->
  exists ps,
    FileSystem_Stat os fs pid = Some ps
    /\ ProcessStatus_Command ps = Ret (name, set_comm ps name).
Proof.
  intros Htoks Hread Htok Ho Hc. unfold FileSystem_Stat. rewrite Hread.
  rewrite Fields_line by exact Htoks.
  eexists. split; [reflexivity |].
  apply Command_plain_name; [reflexivity | exact Htok | exact Ho | exact Hc].
Qed.

Lemma Command_recovers_plain_name_witness :
  exists ps,
    FileSystem_Stat sampleImage procfs 5 = Some ps
    /\ ProcessStatus_Command ps = Ret ("bash", set_comm ps "bash").
Proof.
  apply (@Command_recovers_plain_name
           sampleImage procfs 5
           (statTokens "1234" "(bash)" "1" "98765" "140737488347136") "bash").
  - unfold statTokens.
    repeat (constructor; [split; [discriminate | reflexivity] |]).
    constructor.
  - reflexivity.
  - reflexivity.
  - reflexivity.
  - reflexivity.
Defined.

(** ** Cutting at a byte *)

Lemma genSplit_cut (d : ascii) (s : string) :
  forall cur,
    strings.genSplit (String d "") s 0 cur
    = match cut d s with
      | x :: xs => (cur ++ x) :: xs
      | [] => [cur]
      end.
Proof.
  induction s as [| c s IH]; intros cur.
  - cbn. rewrite append_nil_r. reflexivity.
  - cbn [cut]. destruct (Ascii.eqb_spec c d) as [-> | Hne].
    + rewrite genSplit_byte_sep, IH, append_nil_r.
      pose proof (cut_not_nil d s). destruct (cut d s); [contradiction |].
      reflexivity.
    + cbn [strings.genSplit String.prefix].
      destruct (ascii_dec d c) as [-> | _]; [contradiction |].
      rewrite IH.
      pose proof (cut_not_nil d s). destruct (cut d s); [contradiction |].
      rewrite append_assoc. reflexivity.
Qed.

(** [strings.Split] at a one-byte separator is the cut at that byte. *)
Lemma Split_cut (d : ascii) (s : string) :
  strings.Split s (String d "") = cut d s.
Proof.
  unfold strings.Split. rewrite genSplit_cut.
  pose proof (cut_not_nil d s). destruct (cut d s); [contradiction |].
  reflexivity.
Qed.

(** Joining the segments with the byte gives the string back. *)
Lemma cut_concat (d : ascii) (s : string) :
  String.concat (String d "") (cut d s) = s.
Proof.
  induction s as [| c s IH]; [reflexivity |].
  cbn [cut]. pose proof (cut_not_nil d s) as Hnil.
  destruct (Ascii.eqb_spec c d) as [-> | Hne].
  - destruct (cut d s) as [| x xs]; [contradiction |].
    change (String.concat (String d "") ("" :: x :: xs))
      with (String d (String.concat (String d "") (x :: xs))).
    rewrite IH. reflexivity.
  - destruct (cut d s) as [| x xs]; [contradiction |].
    assert (Hc : String.concat (String d "") (String c x :: xs)
                 = String c (String.concat (String d "") (x :: xs)))
      by (destruct xs; reflexivity).
    rewrite Hc, IH. reflexivity.
Qed.

(** No segment holds the byte. *)
Lemma cut_no_sep (d : ascii) (s : string) :
  Forall (fun x => contains_byte d x = false) (cut d s).
Proof.
  induction s as [| c s IH]; [repeat constructor |].
  cbn [cut]. destruct (Ascii.eqb_spec c d) as [-> | Hne].
  - constructor; [reflexivity | exact IH].
  - destruct (cut d s) as [| x xs]; [repeat constructor |].
    + cbn [contains_byte]. apply Ascii.eqb_neq in Hne.
      rewrite Ascii.eqb_sym, Hne. reflexivity.
    + inversion IH as [| ? ? Hx Hxs]; subst. constructor; [| exact Hxs].
      cbn [contains_byte]. apply Ascii.eqb_neq in Hne.
      rewrite Ascii.eqb_sym, Hne. exact Hx.
Qed.

(** A run without the byte, then the byte: the run is the first segment. *)
Lemma cut_run (d : ascii) (a rest : string) :
  contains_byte d a = false ->
  cut d (a ++ String d rest) = a :: cut d rest.
Proof.
  induction a as [| c a IH]; intros Ha.
  - cbn. rewrite Ascii.eqb_refl. reflexivity.
  - cbn [contains_byte] in Ha. apply orb_false_elim in Ha as [Hc Ha].
    cbn [append cut]. rewrite Ascii.eqb_sym, Hc, (IH Ha). reflexivity.
Qed.

Lemma cut_keeps_absent (d e : ascii) (s : string) :
  contains_byte e s = false ->
  Forall (fun x => contains_byte e x = false) (cut d s).
Proof.
  induction s as [| c s IH]; intros He; [repeat constructor |].
  cbn [contains_byte] in He. apply orb_false_elim in He as [Hc He].
  specialize (IH He). cbn [cut].
  destruct (Ascii.eqb c d); [constructor; [reflexivity | exact IH] |].
  destruct (cut d s) as [| x xs].
  - repeat constructor. cbn [contains_byte]. rewrite Hc. reflexivity.
  - inversion IH as [| ? ? Hx Hxs]; subst. constructor; [| exact Hxs].
    cbn [contains_byte]. rewrite Hc. exact Hx.
Qed.

(** ** Cgroup records and their lines *)

Lemma parseCgroup_recordOfLine (t : string) (c : Cgroup) :
  parseCgroup t = Ret c -> recordOfLine t c.
Proof.
  unfold parseCgroup. rewrite (Split_cut ":" t).
  pose proof (cut_concat ":" t) as Hjoin.
  pose proof (cut_no_sep ":" t) as Hsep.
  destruct (cut ":" t) as [| p0 [| p1 [| p2 rest]]]; cbn [index nth_error bind];
    try discriminate.
  - destruct (strconv.Atoi p0) as [id [e |]]; discriminate.
  - destruct (strconv.Atoi p0) as [id [e |]]; discriminate.
  - destruct (strconv.Atoi p0) as [id [e |]] eqn:Hid; [discriminate |].
    intros [= <-]. exists p0, rest. cbn [ID Controllers Path].
    inversion Hsep as [| ? ? _ Hsep1]; subst.
    inversion Hsep1 as [| ? ? Hp1 Hsep2]; subst.
    inversion Hsep2 as [| ? ? Hp2 _]; subst.
    rewrite (Split_cut "," p1), cut_concat.
    split; [exact Hid |]. split; [reflexivity |].
    split; [exact Hp2 |]. split; [| apply cut_not_nil].
    pose proof (cut_no_sep "," p1) as Hcomma.
    pose proof (cut_keeps_absent "," ":" p1 Hp1) as Hcolon.
    revert Hcomma Hcolon. generalize (cut "," p1).
    induction l as [| x l IHl]; intros Hc1 Hc2; constructor.
    + inversion Hc1; inversion Hc2; subst. split; assumption.
    + inversion Hc1; inversion Hc2; subst. apply IHl; assumption.
Qed.

Lemma cgroupsLoop_inv (lines : list string) :
  forall acc cs,
    cgroupsLoop lines acc = Ret cs ->
    exists cs', cs = (acc ++ cs')%list
                /\ Forall2 (fun t c => parseCgroup t = Ret c) lines cs'.
Proof.
  induction lines as [| t lines IH]; intros acc cs; cbn [cgroupsLoop].
  - intros [= <-]. exists []. rewrite app_nil_r. split; constructor.
  - destruct (parseCgroup t) as [c | e] eqn:Ht; cbn [bind]; [| discriminate].
    intros Hloop. destruct (IH _ _ Hloop) as (cs' & -> & Hall).
    exists (c :: cs'). rewrite <- app_assoc. split; [reflexivity |].
    constructor; assumption.
Qed.

(** X8.  When [Cgroups] returns, it returns one record per line the scanner
    delivered, in the order of the lines, and each record agrees with its
    line: the id is the integer the first part denotes, the controllers
    joined by commas are the second part, the path is the third part, and
    the path holds no colon. *)
Theorem Cgroups_records_agree_with_lines
        (os : OS) (fs : FileSystem) (pid : Z) (content : string)
        (cs : list Cgroup) :
  FileSystem_ReadFile os fs (fmt.decimal pid ++ "/cgroup") = Some content ->
  FileSystem_Cgroups os fs pid = Ret cs ->
  Forall2 recordOfLine (bufio.ScanLines content) cs.
Proof.
  intros Hread. unfold FileSystem_Cgroups. rewrite Hread. intros Hloop.
  destruct (cgroupsLoop_inv _ _ Hloop) as (cs' & -> & Hall).
  cbn [app]. clear Hloop.
  induction Hall as [| t c lines cs' Ht _ IH]; constructor.
  - apply parseCgroup_recordOfLine, Ht.
  - exact IH.
Qed.

Lemma Cgroups_records_agree_witness :
  Forall2 recordOfLine
          (bufio.ScanLines
             ("1:cpu,cpuacct:/" ++ lf
              ++ "2:pids:/docker/abc123def456/init.scope" ++ lf))
          [{| ID := 1; Controllers := ["cpu"; "cpuacct"]; Path := "/" |};
           {| ID := 2; Controllers := ["pids"];
              Path := "/docker/abc123def456/init.scope" |}].
Proof.
  apply (@Cgroups_records_agree_with_lines sampleImage procfs 5);
    vm_compute; reflexivity.
Defined.

(** *** A file of well-formed lines *)

Lemma dropCR_plain (l : string) :
  contains_byte CR l = false -> bufio.dropCR l = l.
Proof.
  intros Hcr. unfold bufio.dropCR.
  destruct (rev_str l) as [| c r] eqn:Hrev; [reflexivity |].
  destruct (Ascii.eqb_spec c CR) as [-> | _]; [| reflexivity].
  rewrite <- contains_byte_rev, Hrev in Hcr. cbn [contains_byte] in Hcr.
  rewrite Ascii.eqb_refl in Hcr. discriminate.
Qed.

Lemma rawLines_terminated (ls : list string) :
  bufio.rawLines (ls ++ [EmptyString]) = ls.
Proof.
  induction ls as [| l ls IH]; [reflexivity |].
  change ((l :: ls) ++ [EmptyString])%list with (l :: (ls ++ [EmptyString]))%list.
  destruct ls as [| l2 ls]; [reflexivity |].
  change (bufio.rawLines (l :: ((l2 :: ls) ++ [""])%list))
    with (l :: bufio.rawLines ((l2 :: ls) ++ [""])%list).
  rewrite IH. reflexivity.
Qed.

Lemma cgroupLine_no_LF (r : string * string * string) :
  wellFormedCgroup r -> contains_byte LF (cgroupLine r) = false.
Proof.
  intros ((_ & H1 & _) & (_ & H2 & _) & (_ & H3 & _) & _).
  unfold cgroupLine. rewrite !contains_byte_append, H1, H2, H3. reflexivity.
Qed.

Lemma cgroupLine_no_CR (r : string * string * string) :
  wellFormedCgroup r -> contains_byte CR (cgroupLine r) = false.
Proof.
  intros ((_ & _ & H1) & (_ & _ & H2) & (_ & _ & H3) & _).
  unfold cgroupLine. rewrite !contains_byte_append, H1, H2, H3. reflexivity.
Qed.

Lemma cut_cgroupFile (rs : list (string * string * string)) :
  Forall wellFormedCgroup rs ->
  cut LF (cgroupFile rs) = (map cgroupLine rs ++ [EmptyString])%list.
Proof.
  induction 1 as [| r rs Hr _ IH]; [reflexivity |].
  cbn [cgroupFile fold_right map app].
  rewrite cut_run by (apply cgroupLine_no_LF, Hr).
  fold (cgroupFile rs). rewrite IH. reflexivity.
Qed.

(** The scanner delivers the lines of a well-formed file as they are. *)
Lemma ScanLines_cgroupFile (rs : list (string * string * string)) :
  Forall wellFormedCgroup rs ->
  bufio.ScanLines (cgroupFile rs) = map cgroupLine rs.
Proof.
  intros Hrs. unfold bufio.ScanLines.
  rewrite cut_cgroupFile by exact Hrs. rewrite rawLines_terminated.
  induction Hrs as [| r rs Hr _ IH]; [reflexivity |].
  cbn [map bufio.deliverable].
  pose proof (cgroupLine_no_CR Hr) as Hcr.
  destruct Hr as (_ & _ & _ & _ & Hlen).
  apply Z.ltb_lt in Hlen. rewrite Hlen. cbn [map].
  rewrite IH, dropCR_plain by exact Hcr. reflexivity.
Qed.

Lemma parseCgroup_cgroupLines (rs : list (string * string * string)) :
  Forall wellFormedCgroup rs ->
  Forall2 (fun t c => parseCgroup t = Ret c)
          (map cgroupLine rs) (map cgroupOf rs).
Proof.
  induction 1 as [| [[id controllers] path] rs Hr _ IH]; cbn [map];
    constructor; [| exact IH].
  destruct Hr as ((Hid & _) & (Hc & _) & (Hp & _) & Hatoi & _).
  cbn [fst snd] in *. unfold cgroupLine, cgroupOf. cbn [fst snd].
  apply parseCgroup_three_parts; try assumption.
  destruct (strconv.Atoi id) as [v e]. cbn [snd] in Hatoi. subst e.
  reflexivity.
Qed.

(** X9.  For a readable cgroup file of lines [id:controllers:path], where no
    part holds a colon, a line feed or a carriage return, every id is an
    integer and every line fits the scanner, [Cgroups] returns the records
    of the lines in order: the integer id, the controllers split at commas,
    and the path in full. *)
Theorem Cgroups_well_formed_file
        (os : OS) (fs : FileSystem) (pid : Z)
        (rs : list (string * string * string)) :
  Forall wellFormedCgroup rs ->
  FileSystem_ReadFile os fs (fmt.decimal pid ++ "/cgroup")
  = Some (cgroupFile rs) ->
  FileSystem_Cgroups os fs pid = Ret (map cgroupOf rs).
Proof.
  intros Hrs Hread. unfold FileSystem_Cgroups. rewrite Hread.
  rewrite ScanLines_cgroupFile by exact Hrs.
  rewrite cgroupsLoop_records with (cs := map cgroupOf rs); [reflexivity |].
  apply parseCgroup_cgroupLines, Hrs.
Qed.

Lemma Cgroups_well_formed_file_witness :
  FileSystem_Cgroups sampleImage procfs 5
  = Ret (map cgroupOf
             [("1", "cpu,cpuacct", "/");
              ("2", "pids", "/docker/abc123def456/init.scope")]).
Proof.
  apply (@Cgroups_well_formed_file sampleImage procfs 5
           [("1", "cpu,cpuacct", "/");
            ("2", "pids", "/docker/abc123def456/init.scope")]).
  - repeat constructor.
  - reflexivity.
Defined.

(** ** What [ContainerID] can return *)

Lemma containerIDLoop_no_slash (cs : list Cgroup) (id : string) :
  containerIDLoop cs = Ret id -> contains_byte "/" id = false.
Proof.
  induction cs as [| c cs IH]; cbn [containerIDLoop].
  - intros [= <-]. reflexivity.
  - destruct (strings.HasPrefix (Path c) "/docker"); [| exact IH].
    rewrite (Split_cut "/" (Path c)). unfold index.
    destruct (nth_error (cut "/" (Path c)) 2) as [x |] eqn:Hn;
      [| discriminate].
    intros [= <-]. apply nth_error_In in Hn.
    pose proof (cut_no_sep "/" (Path c)) as Hall.
    rewrite Forall_forall in Hall. apply Hall, Hn.
Qed.

(** X10.  Whatever [ContainerID] returns holds no slash: it is a single path
    component, or the empty string. *)
Theorem ContainerID_has_no_slash
        (os : OS) (fs : FileSystem) (pid : Z) (id : string) :
  FileSystem_ContainerID os fs pid = Ret id ->
  contains_byte "/" id = false.
Proof.
  unfold FileSystem_ContainerID.
  destruct (FileSystem_Cgroups os fs pid) as [cs | e]; cbn [bind];
    [| discriminate].
  apply containerIDLoop_no_slash.
Qed.

Lemma ContainerID_has_no_slash_witness :
  contains_byte "/" "abc123def456" = false.
Proof.
  apply (@ContainerID_has_no_slash sampleImage procfs 5 "abc123def456").
  vm_compute. reflexivity.
Defined.

(** ** What [CommandLine] can return *)

(** A string is its segments, each but the last followed by the byte. *)
Lemma cut_terminated (d : ascii) (s : string) :
  s = fold_right (fun a rest => a ++ String d rest)
                 (last (cut d s) EmptyString) (removelast (cut d s)).
Proof.
  induction s as [| c s IH]; [reflexivity |].
  cbn [cut]. pose proof (cut_not_nil d s) as Hnil.
  destruct (Ascii.eqb_spec c d) as [-> | Hne].
  - destruct (cut d s) as [| x xs] eqn:E; [contradiction |].
    change (removelast ("" :: x :: xs)) with ("" :: removelast (x :: xs)).
    change (last ("" :: x :: xs) "") with (last (x :: xs) "").
    cbn [fold_right append]. rewrite <- IH. reflexivity.
  - destruct (cut d s) as [| x [| y ys]] eqn:E; [contradiction | |].
    + cbn in IH |- *. rewrite <- IH. reflexivity.
    + change (removelast (String c x :: y :: ys))
        with (String c x :: removelast (y :: ys)).
      change (last (String c x :: y :: ys) "") with (last (y :: ys) "").
      change (removelast (x :: y :: ys)) with (x :: removelast (y :: ys))
        in IH.
      change (last (x :: y :: ys) "") with (last (y :: ys) "") in IH.
      cbn [fold_right append] in IH |- *. rewrite <- IH. reflexivity.
Qed.

Lemma untilEmpty_prefix (l : list string) :
  exists rest, l = (untilEmpty l ++ rest)%list.
Proof.
  induction l as [| x l [rest IH]]; [exists []; reflexivity |].
  cbn [untilEmpty]. destruct (String.length x =? 0)%nat.
  - exists (x :: l). reflexivity.
  - exists rest. cbn [app]. rewrite <- IH. reflexivity.
Qed.

Lemma untilEmpty_Forall (P : string -> Prop) (l : list string) :
  Forall P l ->
  Forall (fun x => x <> EmptyString /\ P x) (untilEmpty l).
Proof.
  induction 1 as [| x l Hx _ IH]; [constructor |].
  cbn [untilEmpty]. destruct x as [| c x]; [constructor |].
  cbn [String.length Nat.eqb]. constructor; [| exact IH].
  split; [discriminate | exact Hx].
Qed.

Lemma Forall_removelast {A} (P : A -> Prop) (l : list A) :
  Forall P l -> Forall P (removelast l).
Proof.
  induction 1 as [| x l Hx Hl IH]; [constructor |].
  destruct l as [| y l]; [constructor |].
  change (removelast (x :: y :: l)) with (x :: removelast (y :: l)).
  constructor; assumption.
Qed.

(** X11.  Every argument [CommandLine] returns is non-empty and holds no NUL
    byte, and the arguments, each followed by a NUL byte, make up the start
    of the file: they are the leading arguments of the process, in order,
    with nothing added and none skipped. *)
Theorem CommandLine_returns_leading_arguments
        (os : OS) (fs : FileSystem) (pid : Z) (cmdline : string) :
  FileSystem_ReadFile os fs (fmt.decimal pid ++ "/cmdline") = Some cmdline ->
  Forall (fun a => a <> EmptyString /\ contains_byte NUL a = false)
         (FileSystem_CommandLine os fs pid)
  /\ exists rest,
      cmdline = fold_right (fun a rest => a ++ String NUL rest) rest
                           (FileSystem_CommandLine os fs pid).
Proof.
  intros Hread. rewrite (CommandLine_cut os fs pid Hread). split.
  - apply untilEmpty_Forall, Forall_removelast, cut_no_sep.
  - destruct (untilEmpty_prefix (removelast (cut NUL cmdline)))
      as [more Hmore].
    exists (fold_right (fun a rest => a ++ String NUL rest)
                       (last (cut NUL cmdline) EmptyString) more).
    rewrite <- fold_right_app, <- Hmore. apply cut_terminated.
Qed.

Lemma CommandLine_returns_leading_arguments_witness :
  Forall (fun a => a <> EmptyString /\ contains_byte NUL a = false)
         (FileSystem_CommandLine sampleImage procfs 5)
  /\ exists rest,
      "ls" ++ nul ++ "-la" ++ nul
      = fold_right (fun a rest => a ++ String NUL rest) rest
                   (FileSystem_CommandLine sampleImage procfs 5).
Proof.
  apply (@CommandLine_returns_leading_arguments sampleImage procfs 5).
  reflexivity.
Defined.

(** ** The tokens [Stat] keeps *)

Lemma fieldsASCII_wellFormed (s : string) :
  forallb_str (fun c => byteval c <? utf8.RuneSelf) s = true ->
  forall cur,
    match cur with Some w => wellFormedToken w | None => True end ->
    Forall wellFormedToken (strings.fieldsASCII s cur).
Proof.
  induction s as [| c s IH]; intros Hs cur Hcur; cbn [strings.fieldsASCII].
  - destruct cur; constructor; [assumption | constructor].
  - cbn [forallb_str] in Hs. apply andb_prop in Hs as [Hc Hs].
    destruct (strings.asciiSpace c) eqn:Hsp.
    + destruct cur as [w |]; [constructor; [exact Hcur |] |];
        apply IH; trivial.
    + assert (Htok : tokenByte c = true)
        by (unfold tokenByte; rewrite Hc, Hsp; reflexivity).
      destruct cur as [w |]; apply IH; trivial.
      * destruct Hcur as [Hne Hw]. split.
        -- destruct w; discriminate.
        -- rewrite forallb_str_append, Hw. cbn [forallb_str].
           rewrite Htok. reflexivity.
      * split; [discriminate |]. cbn [forallb_str]. rewrite Htok.
        reflexivity.
Qed.

(** X12.  The tokens [Stat] keeps of an ASCII status file are never empty
    and hold no white space, however the file is spaced: leading, trailing
    and repeated blanks, tabs and line ends separate tokens and are
    dropped. *)
Theorem Stat_tokens_are_well_formed
        (os : OS) (fs : FileSystem) (pid : Z) (content : string) :
  FileSystem_ReadFile os fs (fmt.decimal pid ++ "/stat") = Some content ->
  forallb_str (fun c => byteval c <? utf8.RuneSelf) content = true ->
  exists ps,
    FileSystem_Stat os fs pid = Some ps
    /\ statFields ps = strings.fieldsASCII content None
    /\ Forall wellFormedToken (statFields ps).
Proof.
  intros Hread Hascii. unfold FileSystem_Stat. rewrite Hread.
  eexists. split; [reflexivity |]. cbn [statFields].
  rewrite Fields_ascii by exact Hascii.
  split; [reflexivity |]. apply fieldsASCII_wellFormed; trivial.
Qed.

Lemma Stat_tokens_are_well_formed_witness :
  exists ps,
    FileSystem_Stat
      (imageOS 77 [("/proc/5/stat", "  1 (a b)  S" ++ lf)]) procfs 5 = Some ps
    /\ statFields ps = strings.fieldsASCII ("  1 (a b)  S" ++ lf) None
    /\ Forall wellFormedToken (statFields ps).
Proof.
  apply (@Stat_tokens_are_well_formed
           (imageOS 77 [("/proc/5/stat", "  1 (a b)  S" ++ lf)]) procfs 5
           ("  1 (a b)  S" ++ lf));
    reflexivity.
Defined.

(** ** The shape of the token *)

Lemma round_length (st : list Z) (kw : Z * Z) :
  List.length (sha256.round st kw) = List.length st.
Proof.
  destruct st as [| a [| b [| c [| d [| e [| f [| g [| h [| i st]]]]]]]]];
    reflexivity.
Qed.

Lemma fold_round_length (kws : list (Z * Z)) :
  forall st, List.length (fold_left sha256.round kws st) = List.length st.
Proof.
  induction kws as [| kw kws IH]; intros st; [reflexivity |].
  cbn [fold_left]. rewrite IH. apply round_length.
Qed.

Lemma block_length (h bs : list Z) :
  List.length (sha256.block h bs) = List.length h.
Proof.
  unfold sha256.block.
  rewrite length_map, length_combine, fold_round_length. apply Nat.min_id.
Qed.

Lemma blocks_length (n : nat) :
  forall h bs, List.length (sha256.blocks n h bs) = List.length h.
Proof.
  induction n as [| n IH]; intros h bs; [reflexivity |].
  cbn [sha256.blocks]. rewrite IH. apply block_length.
Qed.

Lemma bigEndian_bytes (n : nat) (x : Z) :
  List.length (sha256.bigEndian n x) = n
  /\ Forall (fun b => 0 <= b < 256) (sha256.bigEndian n x).
Proof.
  induction n as [| n [IHl IHb]]; [split; [reflexivity | constructor] |].
  cbn [sha256.bigEndian List.length]. rewrite IHl.
  split; [reflexivity |]. constructor; [| exact IHb].
  apply Z.mod_pos_bound. lia.
Qed.

(** The digest has 32 bytes. *)
Lemma Sum256_bytes (msg : list Z) :
  List.length (sha256.Sum256 msg) = 32%nat
  /\ Forall (fun b => 0 <= b < 256) (sha256.Sum256 msg).
Proof.
  unfold sha256.Sum256.
  pose proof (blocks_length (List.length (sha256.pad msg) / 64) sha256.init
                            (sha256.pad msg)) as Hlen.
  change (List.length sha256.init) with 8%nat in Hlen.
  revert Hlen.
  generalize (sha256.blocks (List.length (sha256.pad msg) / 64) sha256.init
                            (sha256.pad msg)).
  intros l Hl.
  assert (Hflat : forall ws : list Z,
             List.length (flat_map (sha256.bigEndian 4) ws)
             = (4 * List.length ws)%nat
             /\ Forall (fun b => 0 <= b < 256)
                       (flat_map (sha256.bigEndian 4) ws)).
  { induction ws as [| w ws [IHl IHb]]; [split; [reflexivity | constructor] |].
    cbn [flat_map]. destruct (bigEndian_bytes 4 w) as [Hwl Hwb].
    rewrite length_app, Hwl, IHl. split; [cbn [List.length]; lia |].
    apply Forall_app. split; assumption. }
  destruct (Hflat l) as [Hfl Hfb]. rewrite Hfl, Hl. split; [reflexivity |].
  exact Hfb.
Qed.

Lemma hexDigit_lower (d : Z) :
  0 <= d < 16 -> isLowerHex (fmt.hexDigit d) = true.
Proof.
  intros Hd.
  assert (Hcases : d = 0 \/ d = 1 \/ d = 2 \/ d = 3 \/ d = 4 \/ d = 5
                   \/ d = 6 \/ d = 7 \/ d = 8 \/ d = 9 \/ d = 10 \/ d = 11
                   \/ d = 12 \/ d = 13 \/ d = 14 \/ d = 15) by lia.
  repeat (destruct Hcases as [-> | Hcases]; [reflexivity |]).
  subst d. reflexivity.
Qed.

(** [%x] prints two lower-case hex digits per byte. *)
Lemma hex_shape (bs : list Z) :
  Forall (fun b => 0 <= b < 256) bs ->
  String.length (fmt.hex bs) = (2 * List.length bs)%nat
  /\ forallb_str isLowerHex (fmt.hex bs) = true.
Proof.
  induction 1 as [| b bs Hb _ [IHl IHh]]; [split; reflexivity |].
  cbn [fmt.hex String.length List.length forallb_str]. rewrite IHl, IHh.
  split; [lia |].
  rewrite !hexDigit_lower; [reflexivity | |].
  - apply Z.mod_pos_bound. lia.
  - split; [apply Z.div_pos; lia | apply Z.div_lt_upper_bound; lia].
Qed.

(** X13.  What [UniqueID] returns is either the empty string, when the
    status file cannot be read (the package variables are then untouched),
    or exactly 64 lower-case hex digits. *)
Theorem UniqueID_is_empty_or_64_hex_digits
        (os : OS) (fs : FileSystem) (pid : Z) (g g' : globals) (id : string) :
  FileSystem_UniqueID os fs pid g = Ret (id, g') ->
  (id = EmptyString /\ g' = g
   /\ FileSystem_ReadFile os fs (fmt.decimal pid ++ "/stat") = None)
  \/ (String.length id = 64%nat /\ forallb_str isLowerHex id = true
      /\ FileSystem_ReadFile os fs (fmt.decimal pid ++ "/stat") <> None).
Proof.
  unfold FileSystem_UniqueID, FileSystem_Stat.
  destruct (FileSystem_ReadFile os fs (fmt.decimal pid ++ "/stat"))
    as [stat |].
  - intros H. right. split; [| split; [| discriminate]].
    all: revert H; unfold ProcessStatus_UniqueID;
      cbn [uniqueID String.length Nat.eqb];
      destruct (BootID os g) as [[b g1] | e]; cbn [bind]; try discriminate;
      rewrite binary_Write_string;
      destruct (ProcessStatus_StartStack _) as [[ss ps1] | e]; cbn [bind];
        try discriminate;
      destruct (binary.Write sha256.New (binary.Uint64 ss)) as [h1 e1];
      destruct (ProcessStatus_StartTime ps1) as [[st ps2] | e]; cbn [bind];
        try discriminate;
      destruct (binary.Write h1 (binary.Uint64 st)) as [h2 e2];
      cbn [uniqueID set_uniqueID bind]; intros [= <- _];
      destruct (Sum256_bytes h2) as [Hlen Hbytes];
      destruct (hex_shape Hbytes) as [Hl Hh]; unfold sha256.Sum.
    + rewrite Hl, Hlen. reflexivity.
    + exact Hh.
  - intros [= <- <-]. left. repeat split.
Qed.

Lemma UniqueID_is_empty_or_64_hex_digits_witness :
  ("2e14d8e1612a4bacd8d0c957b30bfdf145e954b7a0fea083bd2eb4ff0bfcf5b5"
   = EmptyString /\ sampleGlobals = mountedGlobals
   /\ FileSystem_ReadFile sampleImage procfs (fmt.decimal 5 ++ "/stat") = None)
  \/ (String.length
        "2e14d8e1612a4bacd8d0c957b30bfdf145e954b7a0fea083bd2eb4ff0bfcf5b5"
      = 64%nat
      /\ forallb_str
           isLowerHex
           "2e14d8e1612a4bacd8d0c957b30bfdf145e954b7a0fea083bd2eb4ff0bfcf5b5"
         = true
      /\ FileSystem_ReadFile sampleImage procfs (fmt.decimal 5 ++ "/stat")
         <> None).
Proof.
  apply (@UniqueID_is_empty_or_64_hex_digits
           sampleImage procfs 5 mountedGlobals sampleGlobals).
  vm_compute. reflexivity.
Defined.

(** ** The bytes that reach the hash *)

Lemma littleEndian_length (n : nat) :
  forall v, List.length (binary.littleEndian n v) = n.
Proof.
  induction n as [| n IH]; intros v; [reflexivity |].
  cbn [binary.littleEndian List.length]. rewrite IH. reflexivity.
Qed.

(** Reading the bytes back gives the value. *)
Lemma fromLittleEndian_littleEndian (n : nat) :
  forall v, 0 <= v < 256 ^ Z.of_nat n ->
            fromLittleEndian (binary.littleEndian n v) = v.
Proof.
  induction n as [| n IH]; intros v Hv.
  - cbn in Hv |- *. lia.
  - cbn [binary.littleEndian fromLittleEndian].
    rewrite Nat2Z.inj_succ, Z.pow_succ_r in Hv by lia.
    rewrite Z.shiftr_div_pow2 by lia. change (2 ^ 8) with 256.
    rewrite IH.
    + pose proof (Z.div_mod v 256). lia.
    + split; [apply Z.div_pos; lia | apply Z.div_lt_upper_bound; lia].
Qed.

Lemma app_inj_length {A} (a a' b b' : list A) :
  List.length a = List.length a' ->
  (a ++ b = a' ++ b')%list -> a = a' /\ b = b'.
Proof.
  revert a'. induction a as [| x a IH]; intros [| x' a'] Hlen Heq;
    try discriminate.
  - split; [reflexivity | exact Heq].
  - cbn in Heq. injection Heq as -> Heq. injection Hlen as Hlen.
    destruct (IH a' Hlen Heq) as [-> ->]. split; reflexivity.
Qed.

(** X14.  The bytes [UniqueID] writes to the hash determine the start stack
    and the start time: two pairs of 64-bit values that differ anywhere
    write different bytes, so tokens can only coincide through a collision
    of the hash. *)
Theorem hash_input_determines_start_stack_and_time (ss st ss' st' : Z) :
  0 <= ss < 2 ^ 64 -> 0 <= st < 2 ^ 64 ->
  0 <= ss' < 2 ^ 64 -> 0 <= st' < 2 ^ 64 ->
  fst (binary.Write (fst (binary.Write sha256.New (binary.Uint64 ss)))
                    (binary.Uint64 st))
  = fst (binary.Write (fst (binary.Write sha256.New (binary.Uint64 ss')))
                      (binary.Uint64 st')) ->
  ss = ss' /\ st = st'.
Proof.
  intros Hss Hst Hss' Hst'.
  cbn [binary.Write fst sha256.Write sha256.New app].
  intros Heq. apply app_inj_length in Heq as [Ha Hb];
    [| rewrite !littleEndian_length; reflexivity].
  apply (f_equal fromLittleEndian) in Ha, Hb.
  rewrite !fromLittleEndian_littleEndian in Ha, Hb
    by (change (256 ^ Z.of_nat 8) with (2 ^ 64); assumption).
  split; assumption.
Qed.

Lemma hash_input_determines_witness :
  140737488347136 = 140737488347136 /\ 98765 = 98765.
Proof.
  apply (@hash_input_determines_start_stack_and_time
           140737488347136 98765 140737488347136 98765);
    try lia; reflexivity.
Defined.

(** ** Printing in decimal, then parsing *)

Lemma uintValue_of_uint_acc (d : Decimal.uint) :
  forall acc, Z.pos (Pos.of_uint_acc d acc) = uintValue d (Z.pos acc).
Proof.
  induction d; intros acc; cbn [Pos.of_uint_acc uintValue];
    [reflexivity | rewrite IHd; f_equal; lia ..].
Qed.

Lemma uintValue_of_uint (d : Decimal.uint) :
  Z.of_N (Pos.of_uint d) = uintValue d 0.
Proof.
  induction d; cbn [Pos.of_uint uintValue]; try reflexivity;
    try exact IHd; cbn [Z.of_N]; rewrite uintValue_of_uint_acc; reflexivity.
Qed.

Lemma uintValue_ge (d : Decimal.uint) :
  forall acc, 0 <= acc -> acc <= uintValue d acc.
Proof.
  induction d; intros acc Hacc; cbn [uintValue]; [lia | ..];
    match goal with
    | |- _ <= uintValue _ ?a =>
      assert (0 <= a) as Ha by lia; specialize (IHd a Ha); lia
    end.
Qed.

(** One decimal digit taken by the digit loop. *)
Lemma digitLoop_digit (base0 : bool) (maxVal : Z) (c : ascii) (k : Z)
      (s : string) (n : Z) (us : bool) :
  Ascii.eqb c "_" = false -> strconv.digitValue c = Some k -> 0 <= k < 10 ->
  0 <= n -> n * 10 + k <= maxVal -> maxVal <= strconv.maxUint64 ->
  strconv.digitLoop base0 10 (strconv.maxUint64 / 10 + 1) maxVal
                    (String c s) n us
  = strconv.digitLoop base0 10 (strconv.maxUint64 / 10 + 1) maxVal
                      s (n * 10 + k) us.
Proof.
  intros Hu Hd Hk Hn Hmax Hcap. cbn [strconv.digitLoop].
  rewrite Hu, Hd. cbn [andb].
  destruct (Z.leb_spec 10 k); [lia |].
  unfold strconv.maxUint64 in *.
  change ((2 ^ 64 - 1) / 10 + 1) with 1844674407370955162.
  destruct (Z.leb_spec 1844674407370955162 n); [lia |].
  cbv zeta.
  destruct (Z.ltb_spec (2 ^ 64 - 1) (n * 10 + k)); [lia |].
  destruct (Z.ltb_spec maxVal (n * 10 + k)); [lia |].
  reflexivity.
Qed.

(** The digit loop reads printed decimal digits back. *)
Lemma digitLoop_decimal (base0 : bool) (maxVal : Z) (d : Decimal.uint) :
  maxVal <= strconv.maxUint64 ->
  forall n us,
    0 <= n -> uintValue d n <= maxVal ->
    strconv.digitLoop base0 10 (strconv.maxUint64 / 10 + 1) maxVal
                      (NilEmpty.string_of_uint d) n us
    = (uintValue d n, None, us).
Proof.
  intros Hcap. induction d; intros n us Hn Hval;
    cbn [NilEmpty.string_of_uint uintValue] in *; [reflexivity | ..];
    match goal with
    | H : uintValue ?d' (n * 10 + ?k) <= _ |- _ =>
      pose proof (uintValue_ge d' (acc := n * 10 + k) ltac:(lia));
      rewrite (@digitLoop_digit base0 maxVal _ k)
        by (reflexivity || lia);
      apply IHd; [lia | exact H]
    end.
Qed.

Lemma to_uint_value (p : positive) : uintValue (Pos.to_uint p) 0 = Z.pos p.
Proof.
  rewrite <- uintValue_of_uint, DecimalPos.Unsigned.of_to. reflexivity.
Qed.

(** A printed positive number starts with a digit that is not 0. *)
Lemma to_uint_head (p : positive) :
  exists c s',
    NilEmpty.string_of_uint (Pos.to_uint p) = String c s'
    /\ Ascii.eqb c "+" = false /\ Ascii.eqb c "-" = false
    /\ Ascii.eqb c "0" = false.
Proof.
  pose proof (DecimalPos.Unsigned.to_uint_nonnil p) as Hnil.
  assert (Hnz : forall d', Pos.to_uint p <> Decimal.D0 d').
  { intros d' E.
    pose proof (DecimalPos.Unsigned.to_of (Pos.to_uint p)) as Hto.
    rewrite DecimalPos.Unsigned.of_to in Hto. cbn [N.to_uint] in Hto.
    rewrite E in Hto. rewrite DecimalFacts.unorm_D0 in Hto.
    unfold Decimal.unorm in Hto.
    destruct (Decimal.nzhead d') eqn:Hh; try discriminate Hto.
    - injection Hto as ->.
      pose proof (DecimalPos.Unsigned.of_to p) as Hof. rewrite E in Hof.
      discriminate Hof.
    - exact (DecimalFacts.nzhead_nonzero _ _ Hh). }
  destruct (Pos.to_uint p) as [| d' | d' | d' | d' | d' | d' | d' | d' | d'
                               | d'];
    [contradiction | exfalso; apply (Hnz d'); reflexivity | ..];
    cbn [NilEmpty.string_of_uint]; do 2 eexists; repeat split.
Qed.

Lemma decimal_pos (p : positive) :
  fmt.decimal (Z.pos p) = NilEmpty.string_of_uint (Pos.to_uint p).
Proof.
  unfold fmt.decimal. cbn [Z.to_int NilZero.string_of_int].
  unfold NilZero.string_of_uint.
  pose proof (DecimalPos.Unsigned.to_uint_nonnil p).
  destruct (Pos.to_uint p); [contradiction | reflexivity ..].
Qed.

(** [ParseUint] in base 10 or in base 0 reads a printed number back. *)
Lemma ParseUint_decimal (n base bitSize : Z) :
  base = 0 \/ base = 10 -> 0 < bitSize <= 64 -> 0 <= n < 2 ^ bitSize ->
  strconv.ParseUint (fmt.decimal n) base bitSize = (n, None).
Proof.
  intros Hbase Hbits Hn.
  assert (Hcap : 2 ^ bitSize - 1 <= strconv.maxUint64).
  { unfold strconv.maxUint64.
    assert (2 ^ bitSize <= 2 ^ 64) by (apply Z.pow_le_mono_r; lia). lia. }
  destruct n as [| p | p]; [| | lia].
  - destruct Hbase as [-> | ->]; cbn -[Z.pow Z.div];
      destruct ((bitSize <? 0) || (64 <? bitSize)) eqn:Hb;
      try (apply orb_prop in Hb as [Hb | Hb];
           [apply Z.ltb_lt in Hb | apply Z.ltb_lt in Hb]; lia).
    + reflexivity.
    + cbv zeta. cbn [strconv.digitLoop].
      change (Ascii.eqb "0" "_" && false) with false. cbv iota.
      change (strconv.digitValue "0") with (Some 0).
      cbv iota. cbn [Z.leb Z.compare].
      destruct (Z.leb_spec (strconv.maxUint64 / 10 + 1) 0);
        [unfold strconv.maxUint64 in *;
         change ((2 ^ 64 - 1) / 10 + 1) with 1844674407370955162 in *; lia |].
      change (0 * 10 + 0) with 0.
      destruct (Z.ltb_spec strconv.maxUint64 0);
        [unfold strconv.maxUint64 in *; lia |].
      destruct (Z.eqb_spec bitSize 0); [lia |].
      destruct (Z.ltb_spec (2 ^ bitSize - 1) 0);
        [assert (0 < 2 ^ bitSize) by (apply Z.pow_pos_nonneg; lia); lia |].
      reflexivity.
  - rewrite decimal_pos.
    destruct (to_uint_head p) as (c & s' & Hs & _ & _ & Hzero).
    pose proof (@digitLoop_decimal (base =? 0) (2 ^ bitSize - 1)
                  (Pos.to_uint p) Hcap 0 false ltac:(lia)) as Hloop.
    rewrite to_uint_value in Hloop. specialize (Hloop ltac:(lia)).
    unfold strconv.ParseUint. rewrite Hs in *.
    assert (Hpick : strconv.pickBase (String c s') base = Some (10, String c s')).
    { unfold strconv.pickBase.
      destruct Hbase as [-> | ->]; cbn [Z.leb Z.compare andb Z.eqb];
        [rewrite Hzero |]; reflexivity. }
    rewrite Hpick.
    destruct ((bitSize <? 0) || (64 <? bitSize)) eqn:Hb;
      [apply orb_prop in Hb as [Hb | Hb]; apply Z.ltb_lt in Hb; lia |].
    destruct (Z.eqb_spec bitSize 0); [lia |].
    cbv zeta. rewrite Hloop. reflexivity.
Qed.

(** [Atoi] reads a printed number back. *)
Lemma Atoi_decimal (n : Z) :
  0 <= n < 2 ^ 63 -> strconv.Atoi (fmt.decimal n) = (n, None).
Proof.
  intros Hn. unfold strconv.Atoi, strconv.ParseInt.
  assert (Hhead : exists c s', fmt.decimal n = String c s'
                               /\ Ascii.eqb c "+" = false
                               /\ Ascii.eqb c "-" = false).
  { destruct n as [| p | p]; [| | lia].
    - exists "0"%char, EmptyString. repeat split.
    - rewrite decimal_pos.
      destruct (to_uint_head p) as (c & s' & Hs & Hp & Hm & _).
      exists c, s'. repeat split; assumption. }
  destruct Hhead as (c & s' & Hs & Hplus & Hminus).
  pose proof (@ParseUint_decimal n 10 64 (or_intror eq_refl) ltac:(lia)
                ltac:(lia)) as Hu.
  rewrite Hs in *. rewrite Hplus, Hminus. cbn [orb].
  assert (Hu0 : strconv.ParseUint (String c s') 10 0 = (n, None)).
  { revert Hu. unfold strconv.ParseUint.
    destruct (strconv.pickBase (String c s') 10) as [[b digits] |];
      [| discriminate].
    cbn [Z.ltb Z.compare orb Z.eqb]. unfold strconv.IntSize. tauto. }
  rewrite Hu0. cbn [Z.eqb negb andb]. unfold strconv.IntSize.
  change (2 ^ (64 - 1)) with (2 ^ 63).
  destruct (Z.leb_spec (2 ^ 63) n); [lia | reflexivity].
Qed.

(** [ParseInt] reads a printed number that is not negative back. *)
Lemma ParseInt_decimal (n base bitSize : Z) :
  base = 0 \/ base = 10 -> 0 < bitSize <= 64 -> 0 <= n < 2 ^ (bitSize - 1) ->
  strconv.ParseInt (fmt.decimal n) base bitSize = (n, None).
Proof.
  intros Hbase Hbits Hn. unfold strconv.ParseInt.
  assert (Hpow : 2 ^ bitSize = 2 * 2 ^ (bitSize - 1)).
  { rewrite <- Z.pow_succ_r by lia. f_equal. lia. }
  assert (Hhead : exists c s', fmt.decimal n = String c s'
                               /\ Ascii.eqb c "+" = false
                               /\ Ascii.eqb c "-" = false).
  { destruct n as [| p | p]; [| | lia].
    - exists "0"%char, EmptyString. repeat split.
    - rewrite decimal_pos.
      destruct (to_uint_head p) as (c & s' & Hs & Hp & Hm & _).
      exists c, s'. repeat split; assumption. }
  destruct Hhead as (c & s' & Hs & Hplus & Hminus).
  pose proof (@ParseUint_decimal n base bitSize Hbase Hbits ltac:(lia)) as Hu.
  rewrite Hs in *. rewrite Hplus, Hminus. cbn [orb]. rewrite Hu.
  destruct (Z.eqb_spec bitSize 0); [lia |].
  cbn [negb andb].
  destruct (Z.leb_spec (2 ^ (bitSize - 1)) n); [lia | reflexivity].
Qed.

Lemma string_of_uint_no_slash (d : Decimal.uint) :
  contains_byte "/" (NilEmpty.string_of_uint d) = false.
Proof.
  induction d; cbn [NilEmpty.string_of_uint contains_byte];
    [reflexivity | rewrite IHd; reflexivity ..].
Qed.

Lemma decimal_no_slash (n : Z) :
  0 <= n -> contains_byte "/" (fmt.decimal n) = false.
Proof.
  intros Hn. destruct n as [| p | p]; [reflexivity | | lia].
  rewrite decimal_pos. apply string_of_uint_no_slash.
Qed.

(** [filepath.Split] of a path without a slash: no directory. *)
Lemma Split_no_slash (path : string) :
  contains_byte "/" path = false ->
  filepath.Split path = (EmptyString, path).
Proof.
  intros H. destruct path as [| c p]; [reflexivity |].
  cbn [filepath.Split]. destruct (filepath.Split p) as [dir file].
  rewrite H. reflexivity.
Qed.

(** ** Numeric fields that are no numbers *)








(** One decimal digit at the digit loop: a range error, or the loop goes on
    with a value that still fits. *)
Lemma digitLoop_digit_or_range (base0 : bool) (cutoff maxVal : Z) (c : ascii)
      (k : Z) (s : string) (n : Z) (us : bool) :
  Ascii.eqb c "_" = false -> strconv.digitValue c = Some k -> 0 <= k < 10 ->
  strconv.digitLoop base0 10 cutoff maxVal (String c s) n us
  = (maxVal, Some strconv.ErrRange, us)
  \/ (n * 10 + k <= maxVal
      /\ strconv.digitLoop base0 10 cutoff maxVal (String c s) n us
         = strconv.digitLoop base0 10 cutoff maxVal s (n * 10 + k) us).
Proof.
  intros Hu Hd Hk. cbn [strconv.digitLoop]. rewrite Hu, Hd. cbn [andb].
  destruct (Z.leb_spec 10 k); [lia |].
  destruct (cutoff <=? n); [left; reflexivity |].
  cbv zeta.
  destruct (strconv.maxUint64 <? n * 10 + k); [left; reflexivity |].
  destruct (Z.ltb_spec maxVal (n * 10 + k)); [left; reflexivity |].
  right. split; [assumption | reflexivity].
Qed.

(** Printed decimal digits of a value above [maxVal] end the digit loop
    with a range error. *)
Lemma digitLoop_decimal_overflow
      (base0 : bool) (cutoff maxVal : Z) (d : Decimal.uint) :
  forall n us,
    0 <= n <= maxVal -> maxVal < uintValue d n ->
    strconv.digitLoop base0 10 cutoff maxVal (NilEmpty.string_of_uint d) n us
    = (maxVal, Some strconv.ErrRange, us).
Proof.
  induction d; intros n us Hn Hval;
    cbn [NilEmpty.string_of_uint uintValue] in *; [lia | ..];
    match goal with
    | H : _ < uintValue ?d' (?m * 10 + ?k)
      |- strconv.digitLoop _ _ _ _ (String ?c _) _ _ = _ =>
      destruct (@digitLoop_digit_or_range base0 cutoff maxVal c k
                  (NilEmpty.string_of_uint d') m us
                  eq_refl eq_refl ltac:(lia)) as [E | [Hfit E]];
        [exact E | rewrite E; apply IHd; [lia | exact H]]
    end.
Qed.

(** [ParseUint] in base 0 answers a printed number that does not fit with a
    range error. *)
Lemma ParseUint_decimal_overflow (n bitSize : Z) :
  0 < bitSize <= 64 -> 2 ^ bitSize <= n ->
  strconv.ParseUint (fmt.decimal n) 0 bitSize
  = (2 ^ bitSize - 1, Some strconv.ErrRange).
Proof.
  intros Hbits Hn.
  assert (Hpos : 0 < 2 ^ bitSize) by (apply Z.pow_pos_nonneg; lia).
  destruct n as [| p | p]; [lia | | lia].
  rewrite decimal_pos.
  destruct (to_uint_head p) as (c & s' & Hs & _ & _ & Hzero).
  pose proof (@digitLoop_decimal_overflow
                true (strconv.maxUint64 / 10 + 1) (2 ^ bitSize - 1)
                (Pos.to_uint p) 0 false ltac:(lia)) as Hloop.
  rewrite to_uint_value in Hloop. specialize (Hloop ltac:(lia)).
  unfold strconv.ParseUint. rewrite Hs in *.
  unfold strconv.pickBase. cbn [Z.leb Z.compare andb Z.eqb]. rewrite Hzero.
  destruct ((bitSize <? 0) || (64 <? bitSize)) eqn:Hb;
    [apply orb_prop in Hb as [Hb | Hb]; apply Z.ltb_lt in Hb; lia |].
  destruct (Z.eqb_spec bitSize 0); [lia |].
  cbv zeta. rewrite Hloop. reflexivity.
Qed.

(** [ParseInt] in base 0 rejects a printed number above the largest value
    of [int32]. *)
Lemma ParseInt_decimal_overflow (n : Z) :
  2 ^ 31 <= n -> snd (strconv.ParseInt (fmt.decimal n) 0 32) <> None.
Proof.
  intros Hn. unfold strconv.ParseInt.
  destruct n as [| p | p]; [lia | | lia].
  assert (Hu : exists un e,
             strconv.ParseUint (fmt.decimal (Z.pos p)) 0 32 = (un, e)
             /\ 2 ^ 31 <= un
             /\ (e = None \/ e = Some strconv.ErrRange)).
  { destruct (Z.lt_ge_cases (Z.pos p) (2 ^ 32)) as [Hlt | Hge].
    - exists (Z.pos p), None.
      rewrite (@ParseUint_decimal (Z.pos p) 0 32) by (auto || lia).
      split; [reflexivity | split; [exact Hn | left; reflexivity]].
    - exists (2 ^ 32 - 1), (Some strconv.ErrRange).
      rewrite (@ParseUint_decimal_overflow (Z.pos p) 32) by lia.
      split; [reflexivity | split; [lia | right; reflexivity]]. }
  destruct Hu as (un & e & Hu & Hun & He).
  rewrite decimal_pos in *.
  destruct (to_uint_head p) as (c & s' & Hs & Hplus & Hminus & _).
  rewrite Hs in *. rewrite Hplus, Hminus. cbn [orb]. rewrite Hu.
  cbn [Z.eqb negb andb]. change (2 ^ (32 - 1)) with (2 ^ 31).
  destruct (Z.leb_spec (2 ^ 31) un); [| lia].
  destruct He as [-> | ->]; discriminate.
Qed.

(** ** Lines the scanner delivers *)

Lemma rawLines_keeps (before : list string) (line : string)
      (after : list string) :
  after <> [] \/ line <> EmptyString ->
  exists rest,
    bufio.rawLines (before ++ line :: after)%list
    = (before ++ line :: rest)%list.
Proof.
  intros Hline. induction before as [| b before IH].
  - cbn [List.app]. destruct after as [| a after].
    + destruct Hline as [H | H]; [contradiction H; reflexivity |].
      exists []. cbn [bufio.rawLines].
      destruct line; [contradiction H; reflexivity | reflexivity].
    + exists (bufio.rawLines (a :: after)). reflexivity.
  - destruct IH as (rest & IH). exists rest.
    cbn [List.app].
    destruct (before ++ line :: after)%list as [| x xs] eqn:E;
      [destruct before; discriminate E |].
    change (bufio.rawLines (b :: x :: xs)) with (b :: bufio.rawLines (x :: xs)).
    rewrite IH. reflexivity.
Qed.



(** A line that does not fit the buffer ends the scan: [Cgroups] returns
    what the lines before it gave. *)
Lemma Cgroups_stops_at_long_line
      (os : OS) (fs : FileSystem) (pid : Z) (content : string)
      (before : list string) (line : string) (after : list string) :
  FileSystem_ReadFile os fs (fmt.decimal pid ++ "/cgroup") = Some content ->
  cut LF content = (before ++ line :: after)%list ->
  Forall (fun l => len l < bufio.MaxScanTokenSize) before ->
  bufio.MaxScanTokenSize <= len line ->
  FileSystem_Cgroups os fs pid = cgroupsLoop (map bufio.dropCR before) [].
Proof.
  intros Hread Hcut Hshort Hlong.
  unfold FileSystem_Cgroups, bufio.ScanLines. rewrite Hread, Hcut.
  assert (Hne : line <> EmptyString).
  { intros ->. unfold bufio.MaxScanTokenSize, len in Hlong.
    cbn [String.length] in Hlong. lia. }
  destruct (@rawLines_keeps before line after (or_intror Hne)) as (rest & ->).
  f_equal. f_equal. clear Hcut Hread.
  induction before as [| b before IH]; cbn [List.app bufio.deliverable].
  - destruct (Z.ltb_spec (len line) bufio.MaxScanTokenSize);
      [lia | reflexivity].
  - pose proof (Forall_inv Hshort) as Hb. cbv beta in Hb.
    apply Forall_inv_tail in Hshort.
    destruct (Z.ltb_spec (len b) bufio.MaxScanTokenSize); [| lia].
    rewrite IH by exact Hshort. reflexivity.
Qed.










(** ** The checks of [FS()] *)

(** X15.  On a system where /proc is a directory and /proc/self links to a
    process id in decimal, the first [FS()] returns the handle of /proc when
    that id is the id of the calling process, and ends the process with
    "points to wrong pid" when it is another one. *)
Theorem FS_checks_the_self_link (os : OS) (g : globals) (m : Z) :
  procFSOnce g = false ->
  os_Stat os "/proc" = Some true ->
  os_Readlink os "/proc/self" = Some (fmt.decimal m) ->
  0 <= m < 2 ^ 63 ->
  FS os g
  = if m =? os_Getpid os
    then Ret (Some {| MountPoint := "/proc" |},
              {| procFSOnce := true;
                 procFS := Some {| MountPoint := "/proc" |};
                 bootIDOnce := bootIDOnce g; bootID := bootID g |})
    else Abort (GlogFatal
                  ("/proc/self points to wrong pid: " ++ fmt.decimal m)).
Proof.
  intros Honce Hstat Hlink Hm. unfold FS.
  rewrite Honce, Hstat, Hlink. cbn [negb].
  rewrite Split_no_slash by (apply decimal_no_slash; lia).
  rewrite Atoi_decimal by exact Hm.
  destruct (m =? os_Getpid os); reflexivity.
Qed.

Lemma FS_checks_the_self_link_witness :
  FS sampleImage start
  = if 77 =? os_Getpid sampleImage
    then Ret (Some {| MountPoint := "/proc" |},
              {| procFSOnce := true;
                 procFS := Some {| MountPoint := "/proc" |};
                 bootIDOnce := bootIDOnce start; bootID := bootID start |})
    else Abort (GlogFatal
                  ("/proc/self points to wrong pid: " ++ fmt.decimal 77)).
Proof.
  apply (@FS_checks_the_self_link sampleImage start 77);
    try reflexivity; lia.
Defined.

(** ** Reading back what the kernel printed *)

(** X16.  For a status line of well-formed tokens whose fields 1, 4, 22 and
    28 are numbers printed in decimal, within the range of their type, the
    accessors return exactly those numbers. *)
Theorem accessors_read_back_decimal_fields
        (os : OS) (fs : FileSystem) (pid : Z) (toks : list string)
        (p pp st ss : Z) :
  Forall wellFormedToken toks ->
  FileSystem_ReadFile os fs (fmt.decimal pid ++ "/stat")
  = Some (String.concat " " toks ++ lf) ->
  nth_error toks (1 - 1) = Some (fmt.decimal p) -> 0 <= p < 2 ^ 31 ->
  nth_error toks (4 - 1) = Some (fmt.decimal pp) -> 0 <= pp < 2 ^ 31 ->
  nth_error toks (22 - 1) = Some (fmt.decimal st) -> 0 <= st < 2 ^ 64 ->
  nth_error toks (28 - 1) = Some (fmt.decimal ss) -> 0 <= ss < 2 ^ 64 ->
  exists ps,
    FileSystem_Stat os fs pid = Some ps
    /\ ProcessStatus_PID ps = Ret (p, set_pid ps p)
    /\ ProcessStatus_ParentPID ps = Ret (pp, set_ppid ps pp)
    /\ ProcessStatus_StartTime ps = Ret (st, set_startTime ps st)
    /\ ProcessStatus_StartStack ps = Ret (ss, set_startStack ps ss).
Proof.
  intros Htoks Hread H1 Hp H4 Hpp H22 Hst H28 Hss.
  unfold FileSystem_Stat. rewrite Hread.
  rewrite Fields_line by exact Htoks.
  eexists. split; [reflexivity |].
  unfold ProcessStatus_PID, ProcessStatus_ParentPID, ProcessStatus_StartTime,
    ProcessStatus_StartStack, index.
  cbn -[strconv.ParseInt strconv.ParseUint nth_error Z.pow fmt.decimal].
  cbn [Nat.sub] in H1, H4, H22, H28. rewrite H1, H4, H22, H28. cbn [bind].
  rewrite (@ParseInt_decimal p 0 32), (@ParseInt_decimal pp 0 32),
    (@ParseUint_decimal st 0 64), (@ParseUint_decimal ss 0 64)
    by (auto || lia).
  unfold int32.
  rewrite !Z.mod_small by lia.
  replace (p + 2 ^ 31 - 2 ^ 31) with p by lia.
  replace (pp + 2 ^ 31 - 2 ^ 31) with pp by lia.
  repeat split.
Qed.

Lemma accessors_read_back_decimal_fields_witness :
  exists ps,
    FileSystem_Stat sampleImage procfs 5 = Some ps
    /\ ProcessStatus_PID ps = Ret (1234, set_pid ps 1234)
    /\ ProcessStatus_ParentPID ps = Ret (1, set_ppid ps 1)
    /\ ProcessStatus_StartTime ps = Ret (98765, set_startTime ps 98765)
    /\ ProcessStatus_StartStack ps
       = Ret (140737488347136, set_startStack ps 140737488347136).
Proof.
  apply (@accessors_read_back_decimal_fields
           sampleImage procfs 5
           (statTokens "1234" "(bash)" "1" "98765" "140737488347136")
           1234 1 98765 140737488347136);
    try reflexivity; try lia.
  unfold statTokens.
  repeat (constructor; [split; [discriminate | reflexivity] |]).
  constructor.
Defined.

(** ** Trimming the boot identity *)

Lemma DecodeRune_ascii (c : ascii) (s : string) :
  byteval c < utf8.RuneSelf ->
  utf8.DecodeRuneInString (String c s) = (byteval c, 1%nat).
Proof.
  unfold utf8.RuneSelf. intros Hc. unfold utf8.DecodeRuneInString.
  cbn [bytes_of]. unfold utf8.first.
  destruct (Z.ltb_spec (byteval c) 0xC2); [| lia].
  unfold utf8.RuneSelf.
  destruct (Z.ltb_spec (byteval c) 0x80); [reflexivity | lia].
Qed.

Lemma IsSpace_ascii (c : ascii) :
  byteval c < utf8.RuneSelf ->
  unicode.IsSpace (byteval c) = strings.asciiSpace c.
Proof.
  unfold utf8.RuneSelf, unicode.IsSpace, strings.asciiSpace. intros Hc.
  destruct (Z.leb_spec (byteval c) 0xFF); [| lia].
  destruct (Z.eqb_spec (byteval c) 0x85); [lia |].
  destruct (Z.eqb_spec (byteval c) 0xA0); [lia |].
  rewrite !orb_false_r. reflexivity.
Qed.

Lemma get_last (a : string) (c : ascii) :
  String.get (String.length a) (a ++ String c "") = Some c.
Proof. induction a as [| x a IH]; [reflexivity | exact IH]. Qed.

Lemma DecodeLastRune_ascii (a : string) (c : ascii) :
  byteval c < utf8.RuneSelf ->
  utf8.DecodeLastRuneInString (a ++ String c "") = (byteval c, 1%nat).
Proof.
  intros Hc. unfold utf8.DecodeLastRuneInString, len, utf8.byteAt.
  rewrite length_append. cbn [String.length].
  destruct (Z.eqb_spec (Z.of_nat (String.length a + 1)) 0); [lia |].
  replace (Z.to_nat (Z.of_nat (String.length a + 1) - 1))
    with (String.length a) by lia.
  rewrite get_last.
  destruct (Z.ltb_spec (byteval c) utf8.RuneSelf); [reflexivity | lia].
Qed.

(** One step of trimming on the right, at an ASCII byte. *)
Lemma trimRightFunc_ascii (k : nat) (a : string) (c : ascii) :
  byteval c < utf8.RuneSelf ->
  strings.trimRightFunc (S k) unicode.IsSpace (a ++ String c "")
  = if strings.asciiSpace c
    then strings.trimRightFunc k unicode.IsSpace a
    else a ++ String c "".
Proof.
  intros Hc. cbn [strings.trimRightFunc].
  rewrite DecodeLastRune_ascii, IsSpace_ascii by exact Hc.
  rewrite length_append. cbn [String.length].
  replace (String.length a + 1 - 1)%nat with (String.length a) by lia.
  rewrite substring_whole_prefix.
  destruct a; reflexivity.
Qed.

Lemma string_last (s : string) :
  s <> EmptyString -> exists a c, s = a ++ String c "".
Proof.
  induction s as [| x s IH]; [contradiction |]. intros _.
  destruct s as [| y s]; [exists EmptyString, x; reflexivity |].
  destruct IH as (a & c & Hs); [discriminate |].
  exists (String x a), c. cbn [append]. rewrite <- Hs. reflexivity.
Qed.

(** [TrimSpace] of a token followed by a line feed is the token. *)
Lemma TrimSpace_token_line (id : string) :
  wellFormedToken id -> strings.TrimSpace (id ++ lf) = id.
Proof.
  intros [Hne Htok]. unfold strings.TrimSpace, strings.TrimFunc, lf.
  cbv zeta.
  assert (Hleft : strings.trimLeftFunc (String.length (id ++ String LF ""))
                                        unicode.IsSpace (id ++ String LF "")
                  = id ++ String LF "").
  { destruct id as [| c0 rest]; [contradiction |].
    cbn [forallb_str] in Htok. apply andb_prop in Htok as [Hc _].
    unfold tokenByte in Hc. apply andb_prop in Hc as [Hc Hsp].
    apply Z.ltb_lt in Hc. apply negb_true_iff in Hsp.
    cbn [append String.length strings.trimLeftFunc].
    rewrite DecodeRune_ascii, IsSpace_ascii, Hsp by exact Hc. reflexivity. }
  rewrite Hleft, length_append. cbn [String.length].
  replace (String.length id + 1)%nat with (S (String.length id)) by lia.
  rewrite (@trimRightFunc_ascii (String.length id) id LF)
    by (unfold utf8.RuneSelf; cbn; lia).
  change (strings.asciiSpace LF) with true. cbv iota.
  destruct (string_last Hne) as (a & c & ->).
  rewrite forallb_str_append in Htok. apply andb_prop in Htok as [_ Hc].
  cbn [forallb_str] in Hc. rewrite andb_true_r in Hc.
  unfold tokenByte in Hc. apply andb_prop in Hc as [Hc Hsp].
  apply Z.ltb_lt in Hc. apply negb_true_iff in Hsp.
  rewrite length_append. cbn [String.length].
  replace (String.length a + 1)%nat with (S (String.length a)) by lia.
  rewrite trimRightFunc_ascii, Hsp by exact Hc. reflexivity.
Qed.

(** X17.  When the boot identity file holds a token followed by a line
    feed, the first [BootID()] returns the token without the line feed and
    keeps it in the package variable. *)
Theorem BootID_strips_the_line_end
        (os : OS) (g g1 : globals) (id : string) :
  bootIDOnce g = false ->
  ReadFile os "/sys/kernel/random/boot_id" g = Ret (Some (id ++ lf), g1) ->
  wellFormedToken id ->
  BootID os g
  = Ret (id, {| procFSOnce := procFSOnce g1; procFS := procFS g1;
                bootIDOnce := true; bootID := id |}).
Proof.
  intros Honce Hread Hid. unfold BootID. rewrite Honce, Hread. cbn [bind].
  cbn [bootID]. rewrite (TrimSpace_token_line Hid). reflexivity.
Qed.

Lemma BootID_strips_the_line_end_witness :
  BootID sampleImage start = Ret ("abcd-ef", sampleGlobals).
Proof.
  apply (@BootID_strips_the_line_end sampleImage start mountedGlobals
                                     "abcd-ef").
  - reflexivity.
  - vm_compute. reflexivity.
  - split; [discriminate | reflexivity].
Defined.

(** ** From the files to the results *)

(** X18.  From the first call on: on a system whose /proc passes the checks
    of [FS()], whose boot identity file holds a token and a line feed, and
    where the status line of the process is made of well-formed tokens with
    fields 22 and 28 printed in decimal, [UniqueID(pid)] returns the hex
    SHA-256 digest of the start stack and the start time as 8 little-endian
    bytes each, and leaves both guards set and the boot identity kept. *)
Theorem UniqueID_from_the_files
        (os : OS) (pid : Z) (toks : list string) (id : string) (st ss : Z) :
  os_Stat os "/proc" = Some true ->
  os_Readlink os "/proc/self" = Some (fmt.decimal (os_Getpid os)) ->
  0 <= os_Getpid os < 2 ^ 63 ->
  ioutil_ReadFile os (filepath_Join os "/proc" (fmt.decimal pid ++ "/stat"))
  = Some (String.concat " " toks ++ lf) ->
  Forall wellFormedToken toks ->
  nth_error toks (22 - 1) = Some (fmt.decimal st) -> 0 <= st < 2 ^ 64 ->
  nth_error toks (28 - 1) = Some (fmt.decimal ss) -> 0 <= ss < 2 ^ 64 ->
  ioutil_ReadFile os (filepath_Join os "/proc" "/sys/kernel/random/boot_id")
  = Some (id ++ lf) ->
  wellFormedToken id ->
  UniqueID os pid start
  = Ret (fmt.hex (sha256.Sum256 (binary.littleEndian 8 ss
                                 ++ binary.littleEndian 8 st)%list),
         {| procFSOnce := true; procFS := Some {| MountPoint := "/proc" |};
            bootIDOnce := true; bootID := id |}).
Proof.
  intros Hdir Hlink Hself Hstat Htoks H22 Hst H28 Hss Hboot Hid.
  assert (HFS : FS os start = Ret (Some procfs, mountedGlobals)).
  { unfold FS. cbn [procFSOnce start]. rewrite Hdir, Hlink. cbn [negb].
    rewrite Split_no_slash by (apply decimal_no_slash; lia).
    rewrite Atoi_decimal by exact Hself. rewrite Z.eqb_refl. reflexivity. }
  assert (HBoot : BootID os mountedGlobals
                  = Ret (id, {| procFSOnce := true; procFS := Some procfs;
                                bootIDOnce := true; bootID := id |})).
  { unfold BootID, ReadFile, onFS, FS. cbn [bootIDOnce procFSOnce procFS
      mountedGlobals bind].
    unfold FileSystem_ReadFile. cbn [MountPoint procfs]. rewrite Hboot.
    cbn [bootID procFSOnce procFS]. rewrite (TrimSpace_token_line Hid).
    reflexivity. }
  unfold UniqueID, onFS. rewrite HFS. cbn [bind].
  unfold FileSystem_UniqueID, FileSystem_Stat, FileSystem_ReadFile.
  cbn [MountPoint procfs]. rewrite Hstat.
  rewrite Fields_line by exact Htoks.
  edestruct (@ProcessStatus_UniqueID_token os) as (ps' & ->);
    [.. | exact HBoot | exact H28 | | exact H22 | |];
    try reflexivity; apply ParseUint_decimal; auto; lia.
Qed.

Lemma UniqueID_from_the_files_witness :
  UniqueID sampleImage 5 start
  = Ret (fmt.hex (sha256.Sum256 (binary.littleEndian 8 140737488347136
                                 ++ binary.littleEndian 8 98765)%list),
         {| procFSOnce := true; procFS := Some {| MountPoint := "/proc" |};
            bootIDOnce := true; bootID := "abcd-ef" |}).
Proof.
  apply (@UniqueID_from_the_files
           sampleImage 5
           (statTokens "1234" "(bash)" "1" "98765" "140737488347136")
           "abcd-ef" 98765 140737488347136);
    try reflexivity; try (cbn; lia).
  - unfold statTokens.
    repeat (constructor; [split; [discriminate | reflexivity] |]).
    constructor.
  - split; [discriminate | reflexivity].
Defined.

(** X19.  For a readable, well-formed cgroup file, [ContainerID] returns
    the empty string when no path begins with [/docker], and the token
    after [/docker/] of the first path that begins so. *)
Theorem ContainerID_of_well_formed_file
        (os : OS) (fs : FileSystem) (pid : Z)
        (rs : list (string * string * string)) :
  Forall wellFormedCgroup rs ->
  FileSystem_ReadFile os fs (fmt.decimal pid ++ "/cgroup")
  = Some (cgroupFile rs) ->
  (Forall (fun r => strings.HasPrefix (snd r) "/docker" = false) rs ->
   FileSystem_ContainerID os fs pid = Ret EmptyString)
  /\ (forall pre post idText controllers token rest,
         rs = List.app pre ((idText, controllers,
                             "/docker/" ++ token ++ rest) :: post) ->
         Forall (fun r => strings.HasPrefix (snd r) "/docker" = false) pre ->
         contains_byte "/" token = false ->
         rest = EmptyString \/ (exists r, rest = String "/" r) ->
         FileSystem_ContainerID os fs pid = Ret token).
Proof.
  intros Hrs Hread.
  assert (Hcg : FileSystem_Cgroups os fs pid = Ret (map cgroupOf rs)).
  { unfold FileSystem_Cgroups. rewrite Hread.
    rewrite ScanLines_cgroupFile by exact Hrs.
    rewrite cgroupsLoop_records with (cs := map cgroupOf rs);
      [reflexivity |].
    apply parseCgroup_cgroupLines, Hrs. }
  unfold FileSystem_ContainerID. rewrite Hcg. cbn [bind].
  assert (Hmap : forall l,
             Forall (fun r : string * string * string =>
                       strings.HasPrefix (snd r) "/docker" = false) l ->
             Forall (fun p => strings.HasPrefix (Path p) "/docker" = false)
                    (map cgroupOf l)).
  { induction 1; cbn [map]; constructor; assumption. }
  split.
  - intros Hnone. apply containerIDLoop_none, Hmap, Hnone.
  - intros pre post idText controllers token rest -> Hpre Htok Hrest.
    rewrite map_app. cbn [map].
    rewrite containerIDLoop_first; [| apply Hmap, Hpre | reflexivity].
    unfold cgroupOf at 1. cbn [Path snd]. unfold index.
    rewrite Split_docker_path by assumption. reflexivity.
Qed.

Lemma ContainerID_of_well_formed_file_witness :
  FileSystem_ContainerID sampleImage procfs 5 = Ret "abc123def456".
Proof.
  refine (proj2 (@ContainerID_of_well_formed_file
                   sampleImage procfs 5
                   [("1", "cpu,cpuacct", "/");
                    ("2", "pids", "/docker/abc123def456/init.scope")] _ _)
                [("1", "cpu,cpuacct", "/")] [] "2" "pids" "abc123def456"
                "/init.scope" _ _ _ _).
  - repeat constructor.
  - reflexivity.
  - reflexivity.
  - repeat constructor.
  - reflexivity.
  - right. exists "init.scope". reflexivity.
Defined.

(** *** The command line, written and read *)

Lemma cut_cmdlineFile (args : list string) :
  Forall (fun a => a <> EmptyString /\ contains_byte NUL a = false) args ->
  cut NUL (cmdlineFile args) = (args ++ [EmptyString])%list.
Proof.
  induction 1 as [| a args [_ Ha] _ IH]; [reflexivity |].
  cbn [cmdlineFile fold_right app]. rewrite cut_run by exact Ha.
  fold (cmdlineFile args). rewrite IH. reflexivity.
Qed.

(** X20.  [CommandLine] inverts the layout of the file: for arguments that
    are not empty and hold no NUL byte, written each followed by a NUL byte,
    it returns exactly those arguments. *)
Theorem CommandLine_reads_back_the_arguments
        (os : OS) (fs : FileSystem) (pid : Z) (args : list string) :
  Forall (fun a => a <> EmptyString /\ contains_byte NUL a = false) args ->
  FileSystem_ReadFile os fs (fmt.decimal pid ++ "/cmdline")
  = Some (cmdlineFile args) ->
  FileSystem_CommandLine os fs pid = args.
Proof.
  intros Hargs Hread. rewrite (CommandLine_cut os fs pid Hread).
  rewrite cut_cmdlineFile by exact Hargs. rewrite removelast_last.
  apply untilEmpty_all_nonempty. clear Hread.
  induction Hargs as [| a args [Hne _] _ IH]; constructor; [| exact IH].
  destruct a; [contradiction | discriminate].
Qed.

Lemma CommandLine_reads_back_the_arguments_witness :
  FileSystem_CommandLine sampleImage procfs 5 = ["ls"; "-la"].
Proof.
  apply (@CommandLine_reads_back_the_arguments sampleImage procfs 5
                                               ["ls"; "-la"]).
  - repeat constructor; discriminate.
  - reflexivity.
Defined.
